(** * Divine Darshan: session store, auth modal and HTTP client wrapper

    A shallow embedding of
      - [src/services/api.ts] and [src/frontent/services/api.ts]
        (error normalisation, request interceptors, auth endpoints),
      - [src/contexts/AuthContext.tsx] (session store),
      - [src/frontent/components/LoginModal.tsx] (auth modal),
    followed by the properties of the specification that concern them.

    Conventions.  JavaScript values are the inductive [JsVal]; objects are
    finite maps from property names to values.  Code that may throw lives in
    [Completion]; code that also reads or writes the browser storage, React
    state or the network lives in the state-and-exception monad [M] over the
    record [World].  An [async] function is run to completion as one
    transition: the promise it returns is modelled by the completion of the
    monadic computation. *)

From stdpp Require Import base strings gmap list pretty.
From Stdlib Require Import ZArith Lia Ascii String.

Set Warnings "-register-all".
Open Scope string_scope.

(* ===================================================================== *)
(** ** JavaScript values *)
(* ===================================================================== *)

Module Js.

(** Values that reach this code: primitives and plain data objects.  Numbers
    are the integers (HTTP status codes are the only numbers the program
    touches).  Strings are sequences of characters, one per code unit. *)
Inductive JsVal : Type :=
  | JUndefined
  | JNull
  | JBool (b : bool)
  | JNum (n : Z)
  | JStr (s : string)
  | JObj (props : gmap string JsVal).

(** Outcome of evaluating an expression or of settling a promise: a value,
    or a thrown (rejected) value. *)
Inductive Completion (A : Type) : Type :=
  | Normal (a : A)
  | Throw (e : JsVal).
Arguments Normal {A} a.
Arguments Throw {A} e.

#[export] Instance Completion_ret : MRet Completion := fun _ a => Normal a.

#[export] Instance Completion_bind : MBind Completion := fun _ _ k c =>
  match c with
  | Normal a => k a
  | Throw e => Throw e
  end.

(** ToBoolean, as used by [if (v)], [v || w] and [!!v]. *)
Definition to_boolean (v : JsVal) : bool :=
  match v with
  | JUndefined | JNull => false
  | JBool b => b
  | JNum n => negb (n =? 0)%Z
  | JStr s => negb (String.eqb s "")
  | JObj _ => true
  end.

(** ToString, as used by template literals and by [localStorage.setItem].
    The objects of [JsVal] are plain data objects, which print through
    [Object.prototype.toString]. *)
Definition to_string (v : JsVal) : string :=
  match v with
  | JUndefined => "undefined"
  | JNull => "null"
  | JBool true => "true"
  | JBool false => "false"
  | JNum n => pretty n
  | JStr s => s
  | JObj _ => "[object Object]"
  end.

(** The [TypeError] an engine throws; the message text follows V8. *)
Definition type_error (msg : string) : JsVal :=
  JObj {[ "name" := JStr "TypeError"; "message" := JStr msg ]}.

(** Property read [v.k].  Reading from [undefined] or [null] throws; an
    object yields its own property or [undefined]; a primitive is boxed, and
    none of the names this program reads ([response], [request], [message],
    [data], [status], [statusText], [isAxiosError], [token], [user]) is
    defined on a boxed primitive or on [Object.prototype]. *)
Definition get (v : JsVal) (k : string) : Completion JsVal :=
  match v with
  | JUndefined =>
      Throw (type_error ("Cannot read properties of undefined (reading '" +:+ k +:+ "')"))
  | JNull =>
      Throw (type_error ("Cannot read properties of null (reading '" +:+ k +:+ "')"))
  | JObj props => Normal (default JUndefined (props !! k))
  | _ => Normal JUndefined
  end.

(** Optional chaining [v?.k]. *)
Definition get_opt (v : JsVal) (k : string) : Completion JsVal :=
  match v with
  | JUndefined | JNull => Normal JUndefined
  | _ => get v k
  end.

(** [a || b] on already evaluated operands (both are pure where it is used). *)
Definition js_or (a b : JsVal) : JsVal := if to_boolean a then a else b.

Definition is_object (v : JsVal) : bool :=
  match v with JObj _ => true | _ => false end.

(** [axios.isAxiosError(payload)], from the axios library:
    [isObject(payload) && payload.isAxiosError === true]. *)
Definition isAxiosError (payload : JsVal) : bool :=
  match payload with
  | JObj props =>
      match props !! "isAxiosError" with
      | Some (JBool true) => true
      | _ => false
      end
  | _ => false
  end.

End Js.
Import Js.

(* ===================================================================== *)
(** ** Program state and the monad of effects *)
(* ===================================================================== *)

Module State.

(** The four views of the auth modal:
    ['login' | 'signup' | 'forgotPassword' | 'resetSent']. *)
Inductive View : Type := V_login | V_signup | V_forgotPassword | V_resetSent.

#[export] Instance View_eq_dec : EqDecision View.
Proof. solve_decision. Defined.

(** An axios request configuration, as seen by interceptors and transport. *)
Record Request : Type := {
  method : string;
  url : string;
  headers : gmap string string;
  data : JsVal
}.

Definition set_header (k v : string) (config : Request) : Request :=
  {| method := method config; url := url config;
     headers := <[ k := v ]> (headers config); data := data config |}.

(** The [useState] cells of [LoginModal] (lines 15-32). *)
Record Modal : Type := {
  view : View;
  loginIdentifier : string;
  name : string;
  email : string;
  mobile : string;
  resetEmail : string;
  password : string;
  formError : JsVal;
  validationErrors : gmap string string;
  isSubmitting : bool
}.

(** A callback handed to [setTimeout] and not yet run; the only one in the
    program is the body of the timer of [handlePasswordReset], which closes
    over the [resetEmail] of its render. *)
Inductive Timer : Type := ResetLinkTimer (capturedResetEmail : string).

(** What an observer of the program sees, in order. *)
Inductive Event : Type :=
  | EvRequest (config : Request)       (* a request handed to the transport *)
  | EvConsole (line : string)          (* console.log / console.error: first argument *)
  | EvSetUser (u : JsVal)              (* setUser *)
  | EvSetIsLoading (b : bool)          (* setIsLoading *)
  | EvSetIsSubmitting (b : bool)       (* setIsSubmitting *)
  | EvSetFormError (v : JsVal)         (* setFormError *)
  | EvOnLoginSuccess (u : JsVal).      (* the caller's onLoginSuccess *)

Record World : Type := {
  localStorage : gmap string string;   (* window.localStorage *)
  user : JsVal;                        (* AuthProvider: useState<User | null> *)
  isLoading : bool;                    (* AuthProvider: useState(true) *)
  modal : Modal;                       (* LoginModal's state cells *)
  timers : list Timer;                 (* pending setTimeout callbacks *)
  trace : list Event
}.

(** [isAuthenticated: !!user] (AuthContext.tsx, line 78). *)
Definition isAuthenticated (w : World) : bool := to_boolean (user w).

Definition initial_modal : Modal :=
  {| view := V_login; loginIdentifier := ""; name := ""; email := "";
     mobile := ""; resetEmail := ""; password := ""; formError := JStr "";
     validationErrors := ∅; isSubmitting := false |}.

(** The state right after mounting [AuthProvider] and [LoginModal]. *)
Definition initial_world (storage : gmap string string) : World :=
  {| localStorage := storage; user := JNull; isLoading := true;
     modal := initial_modal; timers := []; trace := [] |}.

(** *** The monad *)

Definition M (A : Type) : Type := World -> Completion A * World.

#[export] Instance M_ret : MRet M := fun _ a w => (Normal a, w).

#[export] Instance M_bind : MBind M := fun _ _ k c w =>
  match c w with
  | (Normal a, w') => k a w'
  | (Throw e, w') => (Throw e, w')
  end.

Definition throw {A} (e : JsVal) : M A := fun w => (Throw e, w).

(** Run a pure, possibly throwing, expression. *)
Definition lift {A} (c : Completion A) : M A := fun w => (c, w).

(** [try { body } catch (error) { handler }]: writes made by [body] before
    it throws stay. *)
Definition try_catch {A} (body : M A) (handler : JsVal -> M A) : M A := fun w =>
  match body w with
  | (Normal a, w') => (Normal a, w')
  | (Throw e, w') => handler e w'
  end.

Definition modify (f : World -> World) : M unit := fun w => (Normal tt, f w).

Definition emit (ev : Event) : M unit :=
  modify (fun w =>
    {| localStorage := localStorage w; user := user w; isLoading := isLoading w;
       modal := modal w; timers := timers w; trace := trace w ++ [ev] |}).

Definition with_localStorage (f : gmap string string -> gmap string string) : M unit :=
  modify (fun w =>
    {| localStorage := f (localStorage w); user := user w; isLoading := isLoading w;
       modal := modal w; timers := timers w; trace := trace w |}).

Definition with_modal (f : Modal -> Modal) : M unit :=
  modify (fun w =>
    {| localStorage := localStorage w; user := user w; isLoading := isLoading w;
       modal := f (modal w); timers := timers w; trace := trace w |}).

(** *** Browser primitives *)

(** [localStorage.getItem(k)]: a string or [null]. *)
Definition localStorage_getItem (k : string) : M JsVal := fun w =>
  (Normal (from_option JStr JNull (localStorage w !! k)), w).

(** [localStorage.setItem(k, v)]: stores [ToString(v)]. *)
Definition localStorage_setItem (k : string) (v : JsVal) : M unit :=
  with_localStorage (insert k (to_string v)).

Definition localStorage_removeItem (k : string) : M unit :=
  with_localStorage (delete k).

(** [console.log(line, ...)] and [console.error(line, ...)]: the event keeps
    the first argument, the text that names the message.  Further arguments
    are evaluated by the caller before the call, where reading them can
    throw. *)
Definition console (line : string) : M unit := emit (EvConsole line).

(** [setTimeout(callback, 1000)]. *)
Definition setTimeout (callback : Timer) : M unit :=
  modify (fun w =>
    {| localStorage := localStorage w; user := user w; isLoading := isLoading w;
       modal := modal w; timers := timers w ++ [callback]; trace := trace w |}).

(** *** React state setters *)

Definition setUser (u : JsVal) : M unit :=
  modify (fun w =>
    {| localStorage := localStorage w; user := u; isLoading := isLoading w;
       modal := modal w; timers := timers w; trace := trace w |}) ;;
  emit (EvSetUser u).

Definition setIsLoading (b : bool) : M unit :=
  modify (fun w =>
    {| localStorage := localStorage w; user := user w; isLoading := b;
       modal := modal w; timers := timers w; trace := trace w |}) ;;
  emit (EvSetIsLoading b).

Definition setView (v : View) : M unit :=
  with_modal (fun m =>
    {| view := v; loginIdentifier := loginIdentifier m; name := name m;
       email := email m; mobile := mobile m; resetEmail := resetEmail m;
       password := password m; formError := formError m;
       validationErrors := validationErrors m; isSubmitting := isSubmitting m |}).

Definition setLoginIdentifier (s : string) : M unit :=
  with_modal (fun m =>
    {| view := view m; loginIdentifier := s; name := name m;
       email := email m; mobile := mobile m; resetEmail := resetEmail m;
       password := password m; formError := formError m;
       validationErrors := validationErrors m; isSubmitting := isSubmitting m |}).

Definition setName (s : string) : M unit :=
  with_modal (fun m =>
    {| view := view m; loginIdentifier := loginIdentifier m; name := s;
       email := email m; mobile := mobile m; resetEmail := resetEmail m;
       password := password m; formError := formError m;
       validationErrors := validationErrors m; isSubmitting := isSubmitting m |}).

Definition setEmail (s : string) : M unit :=
  with_modal (fun m =>
    {| view := view m; loginIdentifier := loginIdentifier m; name := name m;
       email := s; mobile := mobile m; resetEmail := resetEmail m;
       password := password m; formError := formError m;
       validationErrors := validationErrors m; isSubmitting := isSubmitting m |}).

Definition setMobile (s : string) : M unit :=
  with_modal (fun m =>
    {| view := view m; loginIdentifier := loginIdentifier m; name := name m;
       email := email m; mobile := s; resetEmail := resetEmail m;
       password := password m; formError := formError m;
       validationErrors := validationErrors m; isSubmitting := isSubmitting m |}).

Definition setResetEmail (s : string) : M unit :=
  with_modal (fun m =>
    {| view := view m; loginIdentifier := loginIdentifier m; name := name m;
       email := email m; mobile := mobile m; resetEmail := s;
       password := password m; formError := formError m;
       validationErrors := validationErrors m; isSubmitting := isSubmitting m |}).

Definition setPassword (s : string) : M unit :=
  with_modal (fun m =>
    {| view := view m; loginIdentifier := loginIdentifier m; name := name m;
       email := email m; mobile := mobile m; resetEmail := resetEmail m;
       password := s; formError := formError m;
       validationErrors := validationErrors m; isSubmitting := isSubmitting m |}).

Definition setFormError (v : JsVal) : M unit :=
  with_modal (fun m =>
    {| view := view m; loginIdentifier := loginIdentifier m; name := name m;
       email := email m; mobile := mobile m; resetEmail := resetEmail m;
       password := password m; formError := v;
       validationErrors := validationErrors m; isSubmitting := isSubmitting m |}) ;;
  emit (EvSetFormError v).

Definition setValidationErrors (errors : gmap string string) : M unit :=
  with_modal (fun m =>
    {| view := view m; loginIdentifier := loginIdentifier m; name := name m;
       email := email m; mobile := mobile m; resetEmail := resetEmail m;
       password := password m; formError := formError m;
       validationErrors := errors; isSubmitting := isSubmitting m |}).

Definition setIsSubmitting (b : bool) : M unit :=
  with_modal (fun m =>
    {| view := view m; loginIdentifier := loginIdentifier m; name := name m;
       email := email m; mobile := mobile m; resetEmail := resetEmail m;
       password := password m; formError := formError m;
       validationErrors := validationErrors m; isSubmitting := b |}) ;;
  emit (EvSetIsSubmitting b).

End State.
Import State.

(* ===================================================================== *)
(** ** Error normalisation: [getApiErrorMessage] *)
(* ===================================================================== *)

Definition no_response_message : string :=
  "No response from server. Please check your network connection.".

Definition unexpected_error_message : string := "An unexpected error occurred.".

(** The last statement of [getApiErrorMessage], shared by both fall-through
    paths: [return error.message || 'An unexpected error occurred.']. *)
Definition own_message_or_fallback (error : JsVal) : Completion JsVal :=
  message ← get error "message";
  Normal (js_or message (JStr unexpected_error_message)).

(** The template literal
    [`Error: ${error.response.status} - ${error.response.statusText}`]. *)
Definition status_line (response : JsVal) : Completion JsVal :=
  status ← get response "status";
  statusText ← get response "statusText";
  Normal (JStr ("Error: " +:+ to_string status +:+ " - " +:+ to_string statusText)).

(** The configuration [api.get(url)] / [api.post(url, data)] start from: no
    endpoint of either client passes a header of its own.  [headers] holds
    the headers that the code of this repository sets; the defaults that
    axios merges in by itself ([Accept], [Content-Type]) are not part of
    the model. *)
Definition get_config (path : string) : Request :=
  {| method := "get"; url := path; headers := ∅; data := JUndefined |}.

Definition post_config (path : string) (body : JsVal) : Request :=
  {| method := "post"; url := path; headers := ∅; data := body |}.

(** The same for [api.put(url, data)] and [api.delete(url)]. *)
Definition put_config (path : string) (body : JsVal) : Request :=
  {| method := "put"; url := path; headers := ∅; data := body |}.

Definition delete_config (path : string) : Request :=
  {| method := "delete"; url := path; headers := ∅; data := JUndefined |}.

(** How the network settles a request: a response object, or a rejection. *)
Definition Transport : Type := Request -> Completion JsVal.

Module Api.

(** [src/services/api.ts], lines 9-23. *)
Definition getApiErrorMessage (error : JsVal) : Completion JsVal :=
  if isAxiosError error then
    response ← get error "response";
    if to_boolean response then
      data ← get response "data";
      message ← get_opt data "message";
      if to_boolean message then Normal message
      else status_line response
    else
      request ← get error "request";
      if to_boolean request then Normal (JStr no_response_message)
      else own_message_or_fallback error
  else own_message_or_fallback error.

Section Client.
Variable transport : Transport.

(** Lines 45-52: the interceptor that adds the auth token. *)
Definition request_interceptor (config : Request) : M Request :=
  token ← localStorage_getItem "divine_token";
  if to_boolean token
  then mret (set_header "Authorization" ("Bearer " +:+ to_string token) config)
  else mret config.

(** A request through the [api] instance: interceptor, then the wire. *)
Definition request (config : Request) : M JsVal :=
  config ← request_interceptor config;
  emit (EvRequest config) ;;
  lift (transport config).

Definition api_get (path : string) : M JsVal := request (get_config path).
Definition api_post (path : string) (body : JsVal) : M JsVal :=
  request (post_config path body).

(** Lines 54-57. *)
Definition loginUser (body : JsVal) : M JsVal := api_post "/auth/login" body.
Definition registerUser (body : JsVal) : M JsVal := api_post "/auth/register" body.
Definition getMe : M JsVal := api_get "/auth/me".
End Client.

(** Lines 25-39.  [import_meta] is the value of [import.meta] and
    [hostname] is [window.location.hostname]. *)
Definition getBaseUrl (import_meta : JsVal) (hostname : string) : Completion JsVal :=
  env ← get_opt import_meta "env";
  productionApiUrl ← get_opt env "VITE_API_URL";
  if to_boolean productionApiUrl then Normal productionApiUrl
  else Normal (JStr ("http://" +:+ hostname +:+ ":5000/api")).

Section Resources.
Variable transport : Transport.

Definition api_put (path : string) (body : JsVal) : M JsVal :=
  request transport (put_config path body).
Definition api_delete (path : string) : M JsVal :=
  request transport (delete_config path).

(** Lines 60-65.  An [id: number] is modelled for the safe integers
    (below 2^53 in absolute value), for which [`${id}`] is the decimal
    numeral that [to_string] gives; other numbers are outside the model. *)
Definition getTemples : M JsVal := api_get transport "/temples".
Definition getTempleById (id : Z) : M JsVal :=
  api_get transport ("/temples/" +:+ to_string (JNum id)).
Definition addTemple (templeData : JsVal) : M JsVal :=
  api_post transport "/temples" templeData.
Definition updateTemple (id : Z) (templeData : JsVal) : M JsVal :=
  api_put ("/temples/" +:+ to_string (JNum id)) templeData.
Definition deleteTemple (id : Z) : M JsVal :=
  api_delete ("/temples/" +:+ to_string (JNum id)).

(** Lines 67-71. *)
Definition getServices : M JsVal := api_get transport "/services".
Definition addService (serviceData : JsVal) : M JsVal :=
  api_post transport "/services" serviceData.
Definition updateService (id : Z) (serviceData : JsVal) : M JsVal :=
  api_put ("/services/" +:+ to_string (JNum id)) serviceData.
Definition deleteService (id : Z) : M JsVal :=
  api_delete ("/services/" +:+ to_string (JNum id)).

(** Lines 73-79. *)
Definition getTestimonials : M JsVal := api_get transport "/content/testimonials".
Definition getSeasonalEvent : M JsVal := api_get transport "/content/seasonalevent".
Definition updateSeasonalEvent (eventData : JsVal) : M JsVal :=
  api_put "/content/seasonalevent" eventData.
Definition addTestimonial (testimonialData : JsVal) : M JsVal :=
  api_post transport "/content/testimonials" testimonialData.
Definition updateTestimonial (id : Z) (testimonialData : JsVal) : M JsVal :=
  api_put ("/content/testimonials/" +:+ to_string (JNum id)) testimonialData.
Definition deleteTestimonial (id : Z) : M JsVal :=
  api_delete ("/content/testimonials/" +:+ to_string (JNum id)).

(** Lines 81-88. *)
Definition createBooking (bookingDetails : JsVal) : M JsVal :=
  api_post transport "/bookings" bookingDetails.
Definition getUserBookings : M JsVal := api_get transport "/bookings/my-bookings".
Definition getAllBookings : M JsVal := api_get transport "/bookings/all".
Definition getUsers : M JsVal := api_get transport "/users".

(** Lines 91-94. *)
Definition createSubscription (subscriptionDetails : JsVal) : M JsVal :=
  api_post transport "/subscriptions" subscriptionDetails.
Definition getSubscriptionsByUserId (userId : string) : M JsVal :=
  api_get transport "/subscriptions/my-subscriptions".
End Resources.

End Api.

Module FrontentApi.

(** [src/frontent/services/api.ts], lines 17-34: the same function, written
    out again in the second client. *)
Definition getApiErrorMessage (error : JsVal) : Completion JsVal :=
  if isAxiosError error then
    response ← get error "response";
    if to_boolean response then
      data ← get response "data";
      message ← get_opt data "message";
      if to_boolean message then Normal message
      else status_line response
    else
      request ← get error "request";
      if to_boolean request then Normal (JStr no_response_message)
      else own_message_or_fallback error
  else own_message_or_fallback error.

Section Client.
Variable transport : Transport.

(** Lines 51-67: the request interceptor "for debugging".  It logs and
    returns the configuration it was given; the logged arguments are read
    from the configuration, whose [method] and [url] are strings. *)
Definition request_interceptor (config : Request) : M Request :=
  console "API Request:" ;;
  mret config.

(** Lines 69-88, fulfilled branch:
    [console.log(.., response.status, response.config.url, response.data);
     return response].  Reading the arguments throws when the response, or
    its [config], is [null] or [undefined]. *)
Definition response_interceptor (response : JsVal) : M JsVal :=
  status ← lift (get response "status");
  config ← lift (get response "config");
  url ← lift (get config "url");
  body ← lift (get response "data");
  console "API Response:" ;;
  mret response.

(** Lines 69-88, rejected branch:
    [console.error(.., error.response?.status, error.response?.data || error.message);
     return Promise.reject(error)]. *)
Definition response_error_interceptor (error : JsVal) : M JsVal :=
  response ← lift (get error "response");
  status ← lift (get_opt response "status");
  body ← lift (get_opt response "data");
  detail ← (if to_boolean body then mret body else lift (get error "message"));
  console "API Response Error:" ;;
  throw error.

(** A request through the [api] instance.  The two response handlers are
    registered as one pair, [promise.then(onFulfilled, onRejected)]: the
    rejected branch sees a rejection of the transport, not an exception of
    the fulfilled branch. *)
Definition request (config : Request) : M JsVal :=
  config ← request_interceptor config;
  emit (EvRequest config) ;;
  match transport config with
  | Normal response => response_interceptor response
  | Throw error => response_error_interceptor error
  end.

Definition api_get (path : string) : M JsVal := request (get_config path).
Definition api_post (path : string) (body : JsVal) : M JsVal :=
  request (post_config path body).

(** Lines 92-95. *)
Definition loginUser (body : JsVal) : M JsVal := api_post "/auth/login" body.
Definition registerUser (body : JsVal) : M JsVal := api_post "/auth/register" body.
Definition getMe : M JsVal := api_get "/auth/me".
End Client.

(** Lines 36-45: the fallback is the deployed backend, whatever the host. *)
Definition getBaseUrl (import_meta : JsVal) : Completion JsVal :=
  env ← get_opt import_meta "env";
  productionApiUrl ← get_opt env "VITE_API_URL";
  if to_boolean productionApiUrl then Normal productionApiUrl
  else Normal (JStr "https://divine-darshan-backend.vercel.app/api").

End FrontentApi.

(* ===================================================================== *)
(** ** Session store: [src/contexts/AuthContext.tsx] *)
(* ===================================================================== *)

Module AuthContext.

(** [{ success: boolean; error?: string }]. *)
Record AuthResult : Type := { success : bool; error : option JsVal }.

(** [result.error], [undefined] when the key is absent. *)
Definition result_error (r : AuthResult) : JsVal := default JUndefined (error r).

(** [const { token, user } = v]: destructuring [undefined] or [null] throws. *)
Definition destructure_token_user (v : JsVal) : Completion (JsVal * JsVal) :=
  match v with
  | JUndefined =>
      Throw (type_error "Cannot destructure property 'token' of 'response.data' as it is undefined.")
  | JNull =>
      Throw (type_error "Cannot destructure property 'token' of 'response.data' as it is null.")
  | _ =>
      token ← get v "token";
      user ← get v "user";
      Normal (token, user)
  end.

Section Provider.
Variable transport : Transport.

(** Lines 27-41. *)
Definition loadUser : M unit :=
  token ← localStorage_getItem "divine_token";
  (if to_boolean token then
     try_catch
       (response ← Api.getMe transport;
        body ← lift (get response "data");
        fetched ← lift (get body "data");
        setUser fetched)
       (fun error =>
          console "Failed to load user session" ;;
          localStorage_removeItem "divine_token" ;;
          setUser JNull)
   else mret tt) ;;
  setIsLoading false.

(** Lines 47-58. *)
Definition login (email password : string) : M AuthResult :=
  try_catch
    (response ←
       Api.loginUser transport
         (JObj {[ "email" := JStr email; "password" := JStr password ]});
     body ← lift (get response "data");
     '(token, loggedInUser) ← lift (destructure_token_user body);
     localStorage_setItem "divine_token" token ;;
     setUser loggedInUser ;;
     mret {| success := true; error := None |})
    (fun error =>
       message ← lift (Api.getApiErrorMessage error);
       mret {| success := false; error := Some message |}).

(** Lines 60-70. *)
Definition signup (name mobile email password : string) : M AuthResult :=
  try_catch
    (response ←
       Api.registerUser transport
         (JObj {[ "name" := JStr name; "email" := JStr email;
                  "mobile" := JStr mobile; "password" := JStr password ]});
     body ← lift (get response "data");
     '(token, newUser) ← lift (destructure_token_user body);
     localStorage_setItem "divine_token" token ;;
     setUser newUser ;;
     mret {| success := true; error := None |})
    (fun error =>
       message ← lift (Api.getApiErrorMessage error);
       mret {| success := false; error := Some message |}).

(** Lines 72-75. *)
Definition logout : M unit :=
  localStorage_removeItem "divine_token" ;;
  setUser JNull.
End Provider.

(** Lines 14-21: the functions of the default context value, which a
    consumer outside an [AuthProvider] receives. *)
Definition default_login (email password : string) : M AuthResult :=
  mret {| success := false; error := None |}.

Definition default_signup (name mobile email password : string) : M AuthResult :=
  mret {| success := false; error := None |}.

Definition default_logout : M unit := mret tt.

End AuthContext.

(* ===================================================================== *)
(** ** Regular expressions and string helpers *)
(* ===================================================================== *)

Module Regex.

(** The fragment the modal's patterns are written in.  Both patterns are
    anchored with [^] and [$] and carry no flags, so [RegExp.prototype.test]
    decides membership of the whole string in the pattern's language;
    [matches] decides it by derivatives. *)
Inductive Regex : Type :=
  | Void
  | Eps
  | Class (p : ascii -> bool)
  | Seq (r1 r2 : Regex)
  | Alt (r1 r2 : Regex)
  | Star (r : Regex).

Fixpoint nullable (r : Regex) : bool :=
  match r with
  | Void => false
  | Eps => true
  | Class _ => false
  | Seq r1 r2 => nullable r1 && nullable r2
  | Alt r1 r2 => nullable r1 || nullable r2
  | Star _ => true
  end.

Definition seq (r1 r2 : Regex) : Regex :=
  match r1, r2 with
  | Void, _ => Void
  | _, Void => Void
  | Eps, _ => r2
  | _, _ => Seq r1 r2
  end.

Definition alt (r1 r2 : Regex) : Regex :=
  match r1, r2 with
  | Void, _ => r2
  | _, Void => r1
  | _, _ => Alt r1 r2
  end.

Fixpoint deriv (c : ascii) (r : Regex) : Regex :=
  match r with
  | Void => Void
  | Eps => Void
  | Class p => if p c then Eps else Void
  | Seq r1 r2 =>
      if nullable r1 then alt (seq (deriv c r1) r2) (deriv c r2)
      else seq (deriv c r1) r2
  | Alt r1 r2 => alt (deriv c r1) (deriv c r2)
  | Star r1 => seq (deriv c r1) (Star r1)
  end.

Fixpoint matches (r : Regex) (s : string) : bool :=
  match s with
  | EmptyString => nullable r
  | String c s' => matches (deriv c r) s'
  end.

(** The language of a pattern, to check [matches] against. *)
Inductive Lang : Regex -> string -> Prop :=
  | L_eps : Lang Eps ""
  | L_class p c : p c = true -> Lang (Class p) (String c "")
  | L_seq r1 r2 s1 s2 : Lang r1 s1 -> Lang r2 s2 -> Lang (Seq r1 r2) (s1 +:+ s2)
  | L_alt_l r1 r2 s : Lang r1 s -> Lang (Alt r1 r2) s
  | L_alt_r r1 r2 s : Lang r2 s -> Lang (Alt r1 r2) s
  | L_star_nil r : Lang (Star r) ""
  | L_star_cons r c s1 s2 :
      Lang r (String c s1) -> Lang (Star r) s2 -> Lang (Star r) (String c s1 +:+ s2).

(** Character classes. *)
Definition code (c : ascii) : nat := nat_of_ascii c.

Definition in_range (lo hi : nat) (c : ascii) : bool :=
  (lo <=? code c)%nat && (code c <=? hi)%nat.

(** [\d] *)
Definition digit (c : ascii) : bool := in_range 48 57 c.

(** [\w]: [A-Za-z0-9_] *)
Definition word (c : ascii) : bool :=
  in_range 65 90 c || in_range 97 122 c || digit c || (code c =? 95)%nat.

(** [[\.-]] *)
Definition dot_or_dash (c : ascii) : bool := (code c =? 46)%nat || (code c =? 45)%nat.

Definition literal (a : ascii) (c : ascii) : bool := (code c =? code a)%nat.

(** Derived forms. *)
Definition plus (r : Regex) : Regex := Seq r (Star r).          (* r+   *)
Definition opt (r : Regex) : Regex := Alt Eps r.                (* r?   *)
Fixpoint times (n : nat) (r : Regex) : Regex :=                 (* r{n} *)
  match n with
  | O => Eps
  | S n' => Seq r (times n' r)
  end.

(** [/^\w+([\.-]?\w+)*@\w+([\.-]?\w+)*(\.\w{2,3})+$/] *)
Definition email_pattern : Regex :=
  let words := Seq (plus (Class word))
                   (Star (Seq (opt (Class dot_or_dash)) (plus (Class word)))) in
  Seq words
    (Seq (Class (literal "@"%char))
       (Seq words
          (plus (Seq (Class (literal "."%char))
                     (Seq (times 2 (Class word)) (opt (Class word))))))).

(** [/^[6-9]\d{9}$/] *)
Definition mobile_pattern : Regex :=
  Seq (Class (in_range 54 57)) (times 9 (Class digit)).

(** [pattern.test(s)] for the two anchored patterns above. *)
Definition test (pattern : Regex) (s : string) : bool := matches pattern s.

(** White space and line terminators stripped by [String.prototype.trim],
    among the characters a [string] holds: TAB, LF, VT, FF, CR, SP, NBSP. *)
Definition is_white_space (c : ascii) : bool :=
  in_range 9 13 c || (code c =? 32)%nat || (code c =? 160)%nat.

Fixpoint trim_start (s : string) : string :=
  match s with
  | EmptyString => EmptyString
  | String c s' => if is_white_space c then trim_start s' else s
  end.

Definition trim (s : string) : string :=
  String.rev (trim_start (String.rev (trim_start s))).

End Regex.

(* ===================================================================== *)
(** ** Auth modal: [src/frontent/components/LoginModal.tsx] *)
(* ===================================================================== *)

Module LoginModal.

Import AuthContext.

(** [Object.keys(o)] *)
Definition object_keys (o : gmap string string) : list string := (map_to_list o).*1.

(** An [<input>] of the rendered form: its [id], [value] and [onChange]
    (applied to [e.target.value]). *)
Record Input : Type := {
  input_id : string;
  input_value : string;
  onChange : string -> M unit
}.

(** Lines 38-71, the error object that [validate] builds.  [m] holds the
    state cells of the render whose closure runs. *)
Definition validation_errors (m : Modal) : gmap string string :=
  let errors : gmap string string := ∅ in
  let errors :=
    if decide (view m = V_login) then
      let errors :=
        if negb (to_boolean (JStr (Regex.trim (loginIdentifier m)))) then
          <[ "loginIdentifier" := "Please enter your email or mobile number." ]> errors
        else if negb (Regex.test Regex.email_pattern (loginIdentifier m))
                && negb (Regex.test Regex.mobile_pattern (loginIdentifier m)) then
          <[ "loginIdentifier" := "Please enter a valid email or 10-digit mobile number." ]> errors
        else errors in
      if (String.length (password m) <? 6)%nat then
        <[ "password" := "Password must be at least 6 characters long." ]> errors
      else errors
    else errors in
  let errors :=
    if decide (view m = V_signup) then
      let errors :=
        if (String.length (Regex.trim (name m)) <? 3)%nat then
          <[ "name" := "Full name must be at least 3 characters." ]> errors
        else errors in
      let errors :=
        if negb (Regex.test Regex.email_pattern (email m)) then
          <[ "email" := "Please enter a valid email address." ]> errors
        else errors in
      let errors :=
        if negb (Regex.test Regex.mobile_pattern (mobile m)) then
          <[ "mobile" := "Please enter a valid 10-digit Indian mobile number." ]> errors
        else errors in
      if (String.length (password m) <? 6)%nat then
        <[ "password" := "Password must be at least 6 characters long." ]> errors
      else errors
    else errors in
  let errors :=
    if decide (view m = V_forgotPassword) then
      if negb (Regex.test Regex.email_pattern (resetEmail m)) then
        <[ "resetEmail" := "Please enter a valid email address." ]> errors
      else errors
    else errors in
  errors.

(** Lines 38-71. *)
Definition validate (m : Modal) : M bool :=
  let errors := validation_errors m in
  setValidationErrors errors ;;
  mret (List.length (object_keys errors) =? 0)%nat.

(** Lines 120-125; [e.preventDefault()] has no effect on the state. *)
Definition switchTo (targetView : View) : M unit :=
  setFormError (JStr "") ;;
  setValidationErrors ∅ ;;
  setView targetView.

(** Lines 113-117, the callback of the timer. *)
Definition run_timer (callback : Timer) : M unit :=
  match callback with
  | ResetLinkTimer capturedResetEmail =>
      console ("Password reset link sent to: " +:+ capturedResetEmail) ;;
      setIsSubmitting false ;;
      setView V_resetSent
  end.

(** Lines 106-118. *)
Definition handlePasswordReset (m : Modal) : M unit :=
  setFormError (JStr "") ;;
  ok ← validate m;
  if negb ok then mret tt
  else
    setIsSubmitting true ;;
    setTimeout (ResetLinkTimer (resetEmail m)).

Section Component.
(** What the component receives: the translation function [t] of
    [LanguageContext], the [login] and [signup] of [AuthContext], and the
    caller's [onLoginSuccess], which is observed in the trace. *)
Variable t : string -> string.
Variable login : string -> string -> M AuthResult.
Variable signup : string -> string -> string -> string -> M AuthResult.

Definition onLoginSuccess (u : JsVal) : M unit := emit (EvOnLoginSuccess u).

(** Lines 74-88.  [m] and [user] are the state cells and the context's
    [user] of the render that created this handler: they are constants of
    the closure, also after the [await]. *)
Definition handleLogin (m : Modal) (user : JsVal) : M unit :=
  setFormError (JStr "") ;;
  ok ← validate m;
  if negb ok then mret tt
  else
    setIsSubmitting true ;;
    result ← login (loginIdentifier m) (password m);
    setIsSubmitting false ;;
    if success result && to_boolean user then onLoginSuccess user
    else setFormError (js_or (result_error result)
                             (JStr (t "loginModal.invalidCredentials"))).

(** Lines 90-104. *)
Definition handleSignup (m : Modal) (user : JsVal) : M unit :=
  setFormError (JStr "") ;;
  ok ← validate m;
  if negb ok then mret tt
  else
    setIsSubmitting true ;;
    result ← signup (name m) (mobile m) (email m) (password m);
    setIsSubmitting false ;;
    if success result && to_boolean user then onLoginSuccess user
    else setFormError (js_or (result_error result)
                             (JStr (t "loginModal.error.generic"))).

(** A submit event reaches the handler of the latest render, whose closure
    holds the state of the world at that moment. *)
Definition submit_login : M unit := fun w => handleLogin (modal w) (user w) w.
Definition submit_signup : M unit := fun w => handleSignup (modal w) (user w) w.
Definition submit_reset : M unit := fun w => handlePasswordReset (modal w) w.
End Component.

(** The inputs of each view (lines 136-237). *)
Definition renderLogin (m : Modal) : list Input :=
  [ {| input_id := "login-identifier"; input_value := loginIdentifier m;
       onChange := setLoginIdentifier |};
    {| input_id := "password-login"; input_value := password m;
       onChange := setPassword |} ].

Definition renderSignup (m : Modal) : list Input :=
  [ {| input_id := "name"; input_value := name m; onChange := setName |};
    {| input_id := "email-signup"; input_value := email m; onChange := setEmail |};
    {| input_id := "mobile"; input_value := mobile m; onChange := setMobile |};
    {| input_id := "password-signup"; input_value := password m;
       onChange := setPassword |} ].

Definition renderForgotPassword (m : Modal) : list Input :=
  [ {| input_id := "reset-email"; input_value := resetEmail m;
       onChange := setResetEmail |} ].

Definition renderResetSent (m : Modal) : list Input := [].

(** Lines 239-247. *)
Definition renderContent (m : Modal) : list Input :=
  match view m with
  | V_login => renderLogin m
  | V_signup => renderSignup m
  | V_forgotPassword => renderForgotPassword m
  | V_resetSent => renderResetSent m
  end.

Definition find_input (id : string) (inputs : list Input) : option Input :=
  List.find (fun i => String.eqb (input_id i) id) inputs.

(** The value shown in the input [id] of the current view, if it is there. *)
Definition shown_value (id : string) (w : World) : option string :=
  input_value <$> find_input id (renderContent (modal w)).

(** The user's actions on the modal that do not submit a form. *)
Inductive Action : Type :=
  | TypeInto (id : string) (text : string)    (* change event on an input *)
  | ClickSwitchTo (targetView : View).        (* click on a switchTo link *)

Definition act (a : Action) : M unit :=
  match a with
  | TypeInto id text => fun w =>
      match find_input id (renderContent (modal w)) with
      | Some i => onChange i text w
      | None => (Normal tt, w)
      end
  | ClickSwitchTo targetView => switchTo targetView
  end.

Fixpoint acts (l : list Action) : M unit :=
  match l with
  | [] => mret tt
  | a :: l' => act a ;; acts l'
  end.

(** Lines 127-135: the text of the error banner, [None] when the component
    renders [null]. *)
Definition FormErrorDisplay (m : Modal) : option JsVal :=
  if negb (to_boolean (formError m)) then None else Some (formError m).

End LoginModal.

(* ===================================================================== *)
(** ** Observations on traces and values, used to state the properties *)
(* ===================================================================== *)

Definition is_setIsLoading (b : bool) (ev : Event) : bool :=
  match ev with EvSetIsLoading b' => Bool.eqb b b' | _ => false end.

(** The requests handed to the transport, oldest first. *)
Definition requests (l : list Event) : list Request :=
  omap (fun ev => match ev with EvRequest config => Some config | _ => None end) l.

(** The arguments [onLoginSuccess] was called with, oldest first. *)
Definition callbacks (l : list Event) : list JsVal :=
  omap (fun ev => match ev with EvOnLoginSuccess u => Some u | _ => None end) l.

(** Own property [k] of [v], [undefined] when [v] has none. *)
Definition field (v : JsVal) (k : string) : JsVal :=
  match v with
  | JObj props => default JUndefined (props !! k)
  | _ => JUndefined
  end.

(** The input fields of the modal, as one tuple. *)
Definition field_values (m : Modal) : string * string * string * string * string * string :=
  (loginIdentifier m, name m, email m, mobile m, resetEmail m, password m).

(** The configuration that the interceptor of [src/services/api.ts] hands to
    the transport when a request is made in world [w]. *)
Definition sent_by_api (w : World) (config : Request) : Request :=
  match fst (Api.request_interceptor config w) with
  | Normal config' => config'
  | Throw _ => config
  end.

(** Error normalisation as section 4.1 of the specification words it, for
    an error object.  "A response was received" is an axios error that
    carries a response; "no response was received" is an axios error that
    carries the request but no response; a field is "present" when it is a
    value that [||] keeps (not [undefined], [null], [""], [0] or [false]). *)
Definition response_received (error : JsVal) : bool :=
  isAxiosError error && to_boolean (field error "response").

Definition no_response_received (error : JsVal) : bool :=
  isAxiosError error && negb (to_boolean (field error "response"))
  && to_boolean (field error "request").

Definition present (v : JsVal) : bool := to_boolean v.

Definition backend_message (error : JsVal) : JsVal :=
  field (field (field error "response") "data") "message".

Definition status_code_and_text (error : JsVal) : JsVal :=
  JStr ("Error: " +:+ to_string (field (field error "response") "status")
        +:+ " - " +:+ to_string (field (field error "response") "statusText")).

Definition spec_error_message (error : JsVal) : JsVal :=
  if response_received error then
    if present (backend_message error) then backend_message error
    else status_code_and_text error
  else if no_response_received error then JStr no_response_message
  else if present (field error "message") then field error "message"
  else JStr unexpected_error_message.

(** An action that types into one of the two password inputs. *)
Definition types_password (a : LoginModal.Action) : Prop :=
  match a with
  | LoginModal.TypeInto id _ => id = "password-login" \/ id = "password-signup"
  | LoginModal.ClickSwitchTo _ => False
  end.

(* ===================================================================== *)
(** ** Auxiliary definitions for the statements, and sample data *)
(* ===================================================================== *)

(** The fetch is rejected, or it resolves with something that has no
    [data.data] to read: the [catch] block runs either way. *)
Definition fetch_fails (outcome : Completion JsVal) : Prop :=
  match outcome with
  | Throw _ => True
  | Normal resp =>
      match get resp "data" with
      | Throw _ => True
      | Normal body =>
          match get body "data" with
          | Throw _ => True
          | Normal _ => False
          end
      end
  end.

(** Sample data: a user record, a backend that answers [/auth/me] when the
    request carries the token "abc", and a backend that knows one account. *)
Definition asha : JsVal :=
  JObj {[ "id" := JNum 7; "name" := JStr "Asha"; "email" := JStr "asha@example.in";
          "mobile" := JStr "9876543210"; "role" := JStr "user" ]}.

Definition backend_knows_abc : Transport := fun config =>
  match headers config !! "Authorization" with
  | Some "Bearer abc" => Normal (JObj {[ "data" := JObj {[ "data" := asha ]} ]})
  | _ => Throw (JObj {[ "isAxiosError" := JBool true;
                        "response" := JObj {[ "status" := JNum 401 ]} ]})
  end.

(** The body [login] posts and the request that leaves for it. *)
Definition credentials (email password : string) : JsVal :=
  JObj {[ "email" := JStr email; "password" := JStr password ]}.

Definition login_request (w : World) (email password : string) : Request :=
  sent_by_api w (post_config "/auth/login" (credentials email password)).

(** The rejection axios produces for a 401 answer of the backend. *)
Definition invalid_credentials : JsVal :=
  JObj {[ "isAxiosError" := JBool true;
          "message" := JStr "Request failed with status code 401";
          "response" := JObj {[ "status" := JNum 401;
                                "statusText" := JStr "Unauthorized";
                                "data" := JObj {[ "success" := JBool false;
                                                  "message" := JStr "Invalid credentials" ]} ]} ]}.

Definition backend_accepts_asha : Transport := fun config =>
  match field (data config) "email", field (data config) "password" with
  | JStr "asha@example.in", JStr "secret1" =>
      Normal (JObj {[ "status" := JNum 200;
                      "data" := JObj {[ "token" := JStr "tok-1"; "user" := asha ]} ]})
  | _, _ => Throw invalid_credentials
  end.

(** Two of the messages of [validate]. *)
Definition identifier_error : string :=
  "Please enter a valid email or 10-digit mobile number.".

Definition password_error : string :=
  "Password must be at least 6 characters long.".

(** The state after the page is loaded again: both components are mounted
    afresh, and only the storage of [w] is still there. *)
Definition reload (w : World) : World := initial_world (localStorage w).

(** Every character of [s] satisfies [P]. *)
Fixpoint string_forallb (P : ascii -> bool) (s : string) : bool :=
  match s with
  | EmptyString => true
  | String c s' => P c && string_forallb P s'
  end.

(** Ten characters, the first from 6 to 9, all of them digits. *)
Definition is_mobile (s : string) : bool :=
  match s with
  | EmptyString => false
  | String c rest =>
      Regex.in_range 54 57 c && (String.length rest =? 9)%nat
      && string_forallb Regex.digit rest
  end.

(** The characters an e-mail address accepted by [validate] is made of. *)
Definition email_char (c : ascii) : bool :=
  Regex.word c || Regex.dot_or_dash c || Regex.literal "@"%char c.

(** Every character class of the pattern lies within [P]. *)
Fixpoint classes_within (P : ascii -> bool) (r : Regex.Regex) : Prop :=
  match r with
  | Regex.Void | Regex.Eps => True
  | Regex.Class p => forall c, p c = true -> P c = true
  | Regex.Seq r1 r2 | Regex.Alt r1 r2 => classes_within P r1 /\ classes_within P r2
  | Regex.Star r1 => classes_within P r1
  end.

(** The fields each view validates. *)
Definition validated_fields (v : View) : gset string :=
  match v with
  | V_login => {[ "loginIdentifier"; "password" ]}
  | V_signup => {[ "name"; "email"; "mobile"; "password" ]}
  | V_forgotPassword => {[ "resetEmail" ]}
  | V_resetSent => ∅
  end.

(** The body [signup] posts and the request that leaves for it. *)
Definition registration (name mobile email password : string) : JsVal :=
  JObj {[ "name" := JStr name; "email" := JStr email;
          "mobile" := JStr mobile; "password" := JStr password ]}.

Definition signup_request (w : World) (name mobile email password : string) : Request :=
  sent_by_api w (post_config "/auth/register" (registration name mobile email password)).

(** The state in which [login] or [signup] starts when a validated
    submission in world [w] calls it. *)
Definition submitting (w : World) : World :=
  snd (setIsSubmitting true (snd (setValidationErrors ∅ (snd (setFormError (JStr "") w))))).

(** The calls a caller can make through the client of [src/services/api.ts]:
    one constructor for each exported endpoint function, with its
    arguments. *)
Inductive endpoint_call (transport : Transport) : M JsVal -> Prop :=
  | call_loginUser body : endpoint_call transport (Api.loginUser transport body)
  | call_registerUser body : endpoint_call transport (Api.registerUser transport body)
  | call_getMe : endpoint_call transport (Api.getMe transport)
  | call_getTemples : endpoint_call transport (Api.getTemples transport)
  | call_getTempleById id : endpoint_call transport (Api.getTempleById transport id)
  | call_addTemple body : endpoint_call transport (Api.addTemple transport body)
  | call_updateTemple id body :
      endpoint_call transport (Api.updateTemple transport id body)
  | call_deleteTemple id : endpoint_call transport (Api.deleteTemple transport id)
  | call_getServices : endpoint_call transport (Api.getServices transport)
  | call_addService body : endpoint_call transport (Api.addService transport body)
  | call_updateService id body :
      endpoint_call transport (Api.updateService transport id body)
  | call_deleteService id : endpoint_call transport (Api.deleteService transport id)
  | call_getTestimonials : endpoint_call transport (Api.getTestimonials transport)
  | call_getSeasonalEvent : endpoint_call transport (Api.getSeasonalEvent transport)
  | call_updateSeasonalEvent body :
      endpoint_call transport (Api.updateSeasonalEvent transport body)
  | call_addTestimonial body : endpoint_call transport (Api.addTestimonial transport body)
  | call_updateTestimonial id body :
      endpoint_call transport (Api.updateTestimonial transport id body)
  | call_deleteTestimonial id :
      endpoint_call transport (Api.deleteTestimonial transport id)
  | call_createBooking body : endpoint_call transport (Api.createBooking transport body)
  | call_getUserBookings : endpoint_call transport (Api.getUserBookings transport)
  | call_getAllBookings : endpoint_call transport (Api.getAllBookings transport)
  | call_getUsers : endpoint_call transport (Api.getUsers transport)
  | call_createSubscription body :
      endpoint_call transport (Api.createSubscription transport body)
  | call_getSubscriptionsByUserId userId :
      endpoint_call transport (Api.getSubscriptionsByUserId transport userId).

(** The [Authorization] header a request leaves with when the endpoint set
    none: the bearer authorization for a stored, non-empty token, and
    otherwise no such header. *)
Definition bearer_authorization (storage : gmap string string) : option string :=
  match storage !! "divine_token" with
  | Some tok => if String.eqb tok "" then None else Some ("Bearer " +:+ tok)
  | None => None
  end.

(** The integers that a [number] holds exactly and prints in decimal. *)
Definition safe_integer (n : Z) : Prop := (- 2 ^ 53 < n < 2 ^ 53)%Z.

(** What the fulfilled branch of the second client's response interceptor
    does with a resolved response: it returns it, unless reading its
    [status] or the [url] of its [config] throws. *)
Definition frontent_resolution (response : JsVal) : Completion JsVal :=
  match response with
  | JUndefined =>
      Throw (type_error "Cannot read properties of undefined (reading 'status')")
  | JNull =>
      Throw (type_error "Cannot read properties of null (reading 'status')")
  | _ =>
      match field response "config" with
      | JUndefined =>
          Throw (type_error "Cannot read properties of undefined (reading 'url')")
      | JNull =>
          Throw (type_error "Cannot read properties of null (reading 'url')")
      | _ => Normal response
      end
  end.

(** The rejection that the debug interceptor of the second client turns a
    [null] or [undefined] rejection into. *)
Definition frontent_rejection (e : JsVal) : JsVal :=
  match e with
  | JUndefined => type_error "Cannot read properties of undefined (reading 'response')"
  | JNull => type_error "Cannot read properties of null (reading 'response')"
  | _ => e
  end.

(** The characters of the local part and of the domain of an accepted
    e-mail address. *)
Definition email_part_char (c : ascii) : bool :=
  Regex.word c || Regex.dot_or_dash c.

(** What each view asks of its fields, in the words of [validate]. *)
Definition login_fields_ok (m : Modal) : Prop :=
  Regex.trim (loginIdentifier m) <> "" /\
  (Regex.test Regex.email_pattern (loginIdentifier m) = true \/
   Regex.test Regex.mobile_pattern (loginIdentifier m) = true) /\
  6 <= String.length (password m).

Definition signup_fields_ok (m : Modal) : Prop :=
  3 <= String.length (Regex.trim (name m)) /\
  Regex.test Regex.email_pattern (email m) = true /\
  Regex.test Regex.mobile_pattern (mobile m) = true /\
  6 <= String.length (password m).

Definition fields_ok (m : Modal) : Prop :=
  match view m with
  | V_login => login_fields_ok m
  | V_signup => signup_fields_ok m
  | V_forgotPassword => Regex.test Regex.email_pattern (resetEmail m) = true
  | V_resetSent => True
  end.

(** Sample data: the Login form as Asha fills it in, with a given password,
    and the world in which the modal holds it. *)
Definition login_form (password : string) : Modal :=
  {| view := V_login; loginIdentifier := "asha@example.in"; name := "";
     email := ""; mobile := ""; resetEmail := ""; password := password;
     formError := JStr ""; validationErrors := ∅; isSubmitting := false |}.

Definition world_with_form (m : Modal) : World :=
  {| localStorage := ∅; user := JNull; isLoading := false; modal := m;
     timers := []; trace := [] |}.

(* ===================================================================== *)
(** ** Properties *)
(* ===================================================================== *)

Example ex_invalid_credentials :
  Api.getApiErrorMessage
    (JObj {[ "isAxiosError" := JBool true;
             "response" := JObj {[ "status" := JNum 401;
                                   "data" := JObj {[ "message" := JStr "Invalid credentials" ]} ]} ]})
  = Normal (JStr "Invalid credentials").
Proof. vm_compute. reflexivity. Qed.

Example ex_status_line :
  Api.getApiErrorMessage
    (JObj {[ "isAxiosError" := JBool true;
             "response" := JObj {[ "status" := JNum 500;
                                   "statusText" := JStr "Internal Server Error";
                                   "data" := JNull ]} ]})
  = Normal (JStr "Error: 500 - Internal Server Error").
Proof. vm_compute. reflexivity. Qed.

Example ex_boom :
  Api.getApiErrorMessage (JObj {[ "message" := JStr "boom" ]}) = Normal (JStr "boom").
Proof. vm_compute. reflexivity. Qed.

(** *** The pattern matcher *)
Section Patterns.

Import Regex.

Lemma append_nil_l (s : string) : "" +:+ s = s.
Proof. reflexivity. Qed.

Lemma append_cons (c : ascii) (s1 s2 : string) :
  String c s1 +:+ s2 = String c (s1 +:+ s2).
Proof. reflexivity. Qed.

Lemma Lang_void (s : string) : ~ Lang Void s.
Proof. intros H. inversion H. Qed.

Lemma Lang_eps (s : string) : Lang Eps s -> s = "".
Proof. intros H. inversion H. reflexivity. Qed.

Lemma Lang_class (p : ascii -> bool) (s : string) :
  Lang (Class p) s -> exists c, s = String c "" /\ p c = true.
Proof. intros H. inversion H; subst. eauto. Qed.

Lemma Lang_seq (r1 r2 : Regex) (s : string) :
  Lang (Seq r1 r2) s -> exists s1 s2, s = s1 +:+ s2 /\ Lang r1 s1 /\ Lang r2 s2.
Proof. intros H. inversion H; subst. eauto. Qed.

Lemma Lang_alt (r1 r2 : Regex) (s : string) :
  Lang (Alt r1 r2) s -> Lang r1 s \/ Lang r2 s.
Proof. intros H. inversion H; subst; auto. Qed.

Lemma Lang_star (r : Regex) (c : ascii) (s : string) :
  Lang (Star r) (String c s) ->
  exists s1 s2, s = s1 +:+ s2 /\ Lang r (String c s1) /\ Lang (Star r) s2.
Proof.
  intros H. remember (String c s) as s0 eqn:Hs0. remember (Star r) as r0 eqn:Hr0.
  destruct H; try discriminate Hr0; try discriminate Hs0.
  injection Hr0 as Hr. rewrite append_cons in Hs0. injection Hs0 as Hc Hs. subst.
  exists s1, s2. auto.
Qed.

Lemma Lang_seq_smart (r1 r2 : Regex) (s : string) :
  Lang (seq r1 r2) s <-> Lang (Seq r1 r2) s.
Proof.
  assert (Hvoid_l : forall r, Lang Void s <-> Lang (Seq Void r) s).
  { intros r. split; intros H; [destruct (Lang_void _ H)|].
    apply Lang_seq in H as (s1 & s2 & _ & H1 & _). destruct (Lang_void _ H1). }
  assert (Hvoid_r : forall r, Lang Void s <-> Lang (Seq r Void) s).
  { intros r. split; intros H; [destruct (Lang_void _ H)|].
    apply Lang_seq in H as (s1 & s2 & _ & _ & H2). destruct (Lang_void _ H2). }
  assert (Heps : forall r, Lang r s <-> Lang (Seq Eps r) s).
  { intros r. split; intros H.
    - change s with ("" +:+ s). constructor; [constructor|exact H].
    - apply Lang_seq in H as (s1 & s2 & -> & H1 & H2).
      apply Lang_eps in H1. subst s1. exact H2. }
  destruct r1, r2; cbn [seq]; auto; reflexivity.
Qed.

Lemma Lang_alt_smart (r1 r2 : Regex) (s : string) :
  Lang (alt r1 r2) s <-> Lang (Alt r1 r2) s.
Proof.
  assert (Hl : forall r, Lang r s <-> Lang (Alt Void r) s).
  { intros r. split; intros H; [apply L_alt_r; exact H|].
    apply Lang_alt in H as [H|H]; [destruct (Lang_void _ H)|exact H]. }
  assert (Hr : forall r, Lang r s <-> Lang (Alt r Void) s).
  { intros r. split; intros H; [apply L_alt_l; exact H|].
    apply Lang_alt in H as [H|H]; [exact H|destruct (Lang_void _ H)]. }
  destruct r1, r2; cbn [alt]; auto; reflexivity.
Qed.

Lemma append_empty (s1 s2 : string) : s1 +:+ s2 = "" -> s1 = "" /\ s2 = "".
Proof. destruct s1; cbn; [auto|discriminate]. Qed.

Lemma nullable_spec (r : Regex) : nullable r = true <-> Lang r "".
Proof.
  split.
  - induction r as [| |p|r1 IH1 r2 IH2|r1 IH1 r2 IH2|r IH]; cbn [nullable];
      intros H; try discriminate H.
    + constructor.
    + apply andb_true_iff in H as [H1 H2].
      change "" with ("" +:+ ""). constructor; auto.
    + apply orb_true_iff in H as [H|H]; [apply L_alt_l|apply L_alt_r]; auto.
    + constructor.
  - intros H. remember "" as s eqn:Hs. induction H; cbn [nullable];
      try reflexivity; try discriminate Hs.
    + apply append_empty in Hs as [-> ->].
      rewrite IHLang1, IHLang2; reflexivity.
    + rewrite IHLang by assumption. reflexivity.
    + rewrite IHLang by assumption. apply orb_true_r.
Qed.

Lemma deriv_seq (r1 r2 : Regex) (c : ascii) (s : string) :
  (forall s', Lang (deriv c r1) s' <-> Lang r1 (String c s')) ->
  (forall s', Lang (deriv c r2) s' <-> Lang r2 (String c s')) ->
  Lang (Seq (deriv c r1) r2) s \/ (nullable r1 = true /\ Lang (deriv c r2) s)
  <-> Lang (Seq r1 r2) (String c s).
Proof.
  intros IH1 IH2. split.
  - intros [H|[Hn H]].
    + apply Lang_seq in H as (s1 & s2 & -> & H1 & H2).
      change (String c (s1 +:+ s2)) with (String c s1 +:+ s2).
      constructor; [apply IH1; exact H1|exact H2].
    + change (String c s) with ("" +:+ String c s).
      constructor; [apply nullable_spec; exact Hn|apply IH2; exact H].
  - intros H. apply Lang_seq in H as (s1 & s2 & Heq & H1 & H2).
    destruct s1 as [|c' s1].
    + rewrite append_nil_l in Heq. subst s2. right.
      split; [apply nullable_spec; exact H1|apply IH2; exact H2].
    + rewrite append_cons in Heq. injection Heq as Hc Hs. subst c' s. left.
      constructor; [apply IH1; exact H1|exact H2].
Qed.

Lemma deriv_spec (r : Regex) (c : ascii) (s : string) :
  Lang (deriv c r) s <-> Lang r (String c s).
Proof.
  revert s. induction r as [| |p|r1 IH1 r2 IH2|r1 IH1 r2 IH2|r IH]; intros s;
    cbn [deriv].
  - split; intros H; inversion H.
  - split; intros H; inversion H.
  - destruct (p c) eqn:Hp; split; intros H.
    + apply Lang_eps in H. subst s. constructor. exact Hp.
    + apply Lang_class in H as (c' & Heq & _). injection Heq as _ ->. constructor.
    + destruct (Lang_void _ H).
    + apply Lang_class in H as (c' & Heq & Hc'). injection Heq as <- _. congruence.
  - rewrite <- (deriv_seq r1 r2 c s IH1 IH2).
    destruct (nullable r1) eqn:Hn.
    + split.
      * intros H. apply Lang_alt_smart, Lang_alt in H as [H|H]; [left|right; auto].
        apply Lang_seq_smart. exact H.
      * intros [H|[_ H]]; apply Lang_alt_smart; [apply L_alt_l|apply L_alt_r; exact H].
        apply Lang_seq_smart. exact H.
    + split.
      * intros H. left. apply Lang_seq_smart. exact H.
      * intros [H|[Hfalse _]]; [apply Lang_seq_smart; exact H|discriminate].
  - rewrite Lang_alt_smart. split; intros H.
    + apply Lang_alt in H as [H|H];
        [apply L_alt_l; apply IH1|apply L_alt_r; apply IH2]; exact H.
    + apply Lang_alt in H as [H|H];
        [apply L_alt_l; apply IH1|apply L_alt_r; apply IH2]; exact H.
  - rewrite Lang_seq_smart. split; intros H.
    + apply Lang_seq in H as (s1 & s2 & -> & H1 & H2).
      change (String c (s1 +:+ s2)) with (String c s1 +:+ s2).
      constructor; [apply IH; exact H1|exact H2].
    + apply Lang_star in H as (s1 & s2 & -> & H1 & H2).
      constructor; [apply IH; exact H1|exact H2].
Qed.

(** [matches] decides the language of the pattern, so [test] on an anchored
    pattern answers whether the whole string is in it. *)
Lemma matches_spec (r : Regex) (s : string) : matches r s = true <-> Lang r s.
Proof.
  revert r. induction s as [|c s IH]; intros r; cbn [matches].
  - apply nullable_spec.
  - rewrite IH. apply deriv_spec.
Qed.

Example ex_mobile_too_short : test mobile_pattern "12345" = false.
Proof. vm_compute. reflexivity. Qed.

Example ex_mobile_valid : test mobile_pattern "9876543210" = true.
Proof. vm_compute. reflexivity. Qed.

Example ex_mobile_leading_digit : test mobile_pattern "5876543210" = false.
Proof. vm_compute. reflexivity. Qed.

Example ex_email_valid : test email_pattern "asha.rao-1@mail.example.in" = true.
Proof. vm_compute. reflexivity. Qed.

Example ex_email_short_tld : test email_pattern "a@b.c" = false.
Proof. vm_compute. reflexivity. Qed.

Example ex_identifier_of_C4 :
  test email_pattern "not-an-email-or-phone" = false /\
  test mobile_pattern "not-an-email-or-phone" = false.
Proof. split; vm_compute; reflexivity. Qed.

Example ex_trim : trim "  Asha Rao  " = "Asha Rao".
Proof. vm_compute. reflexivity. Qed.

End Patterns.

(** *** Stepping through monadic code *)

(** Unfold the monad, the primitives and the record projections, and
    nothing else: finite maps, strings and patterns stay folded. *)
Ltac mstep :=
  cbv beta iota zeta delta
    [ mbind mret M_bind M_ret Completion_bind Completion_ret
      throw lift try_catch modify emit with_localStorage with_modal
      localStorage_getItem localStorage_setItem localStorage_removeItem
      console setTimeout setUser setIsLoading setView setLoginIdentifier
      setName setEmail setMobile setResetEmail setPassword setFormError
      setValidationErrors setIsSubmitting
      localStorage user isLoading modal timers trace
      view loginIdentifier name email mobile resetEmail password formError
      validationErrors isSubmitting field_values isAuthenticated
      fst snd ].

Ltac destruct_world w :=
  let m := fresh "m" in
  destruct w as [? ? ? m ? ?]; destruct m as [? ? ? ? ? ? ? ? ? ?].

Lemma to_boolean_JStr (s : string) : to_boolean (JStr s) = true <-> s <> "".
Proof.
  cbn [to_boolean]. destruct (String.eqb_spec s ""); cbn [negb]; split; congruence.
Qed.

Lemma requests_app (l1 l2 : list Event) :
  requests (l1 ++ l2) = (requests l1 ++ requests l2)%list.
Proof. apply omap_app. Qed.

Lemma callbacks_app (l1 l2 : list Event) :
  callbacks (l1 ++ l2) = (callbacks l1 ++ callbacks l2)%list.
Proof. apply omap_app. Qed.

Section Logout.

(** C9. [logout] never throws, removes the persisted token, clears the
    stored user (so [isAuthenticated] is false), leaves every other storage
    key alone and hands nothing to the transport: the only thing it adds to
    the trace is its [setUser(null)].  It takes no transport at all and is a
    plain, non-[async] function. *)
Theorem C9_logout_clears_session (w : World) :
  exists w',
    AuthContext.logout w = (Normal tt, w') /\
    localStorage w' = delete "divine_token" (localStorage w) /\
    localStorage w' !! "divine_token" = None /\
    (forall k, k <> "divine_token" -> localStorage w' !! k = localStorage w !! k) /\
    user w' = JNull /\
    isAuthenticated w' = false /\
    isLoading w' = isLoading w /\
    trace w' = (trace w ++ [EvSetUser JNull])%list /\
    requests (trace w') = requests (trace w).
Proof.
  exists (snd (AuthContext.logout w)).
  destruct_world w. unfold AuthContext.logout. mstep.
  split; [reflexivity|]. split; [reflexivity|].
  split; [apply lookup_delete_eq|].
  split; [intros k Hk; apply lookup_delete_ne; congruence|].
  split; [reflexivity|]. split; [reflexivity|]. split; [reflexivity|].
  split; [reflexivity|].
  rewrite requests_app. apply app_nil_r.
Qed.

End Logout.

Section ViewSwitch.

Import LoginModal.

Ltac mrun_modal :=
  cbv beta iota zeta delta
    [ acts act switchTo run_timer handlePasswordReset submit_reset validate ];
  mstep.

Lemma object_keys_empty : object_keys ∅ = [].
Proof. unfold object_keys. rewrite map_to_list_empty. reflexivity. Qed.

(** C5. Both ways the modal changes view clear the form error and the
    whole validation-error map and keep every input field.
    (1) [switchTo], for every target and every state.
    (2) In particular Login -> Signup -> Login, after each switch.
    (3) ForgotPassword -> ResetSent: a reset submission that passes
    validation schedules the timer, and when the timer's callback runs the
    view is [resetSent] with no form error, no validation error and the
    fields as they were. *)
Theorem C5_view_switch_clears_errors_keeps_fields :
  (forall (targetView : View) (w : World),
     exists w',
       switchTo targetView w = (Normal tt, w') /\
       view (modal w') = targetView /\
       formError (modal w') = JStr "" /\
       validationErrors (modal w') = ∅ /\
       field_values (modal w') = field_values (modal w)) /\
  (forall w : World,
     exists w1 w2,
       switchTo V_signup w = (Normal tt, w1) /\
       switchTo V_login w1 = (Normal tt, w2) /\
       acts [ClickSwitchTo V_signup; ClickSwitchTo V_login] w = (Normal tt, w2) /\
       view (modal w1) = V_signup /\
       formError (modal w1) = JStr "" /\ validationErrors (modal w1) = ∅ /\
       field_values (modal w1) = field_values (modal w) /\
       view (modal w2) = V_login /\
       formError (modal w2) = JStr "" /\ validationErrors (modal w2) = ∅ /\
       field_values (modal w2) = field_values (modal w)) /\
  (forall w : World,
     validation_errors (modal w) = ∅ ->
     exists w1 w2,
       submit_reset w = (Normal tt, w1) /\
       timers w1 = (timers w ++ [ResetLinkTimer (resetEmail (modal w))])%list /\
       view (modal w1) = view (modal w) /\
       run_timer (ResetLinkTimer (resetEmail (modal w))) w1 = (Normal tt, w2) /\
       view (modal w2) = V_resetSent /\
       formError (modal w2) = JStr "" /\
       validationErrors (modal w2) = ∅ /\
       field_values (modal w2) = field_values (modal w)).
Proof.
  split; [|split].
  - intros targetView w. exists (snd (switchTo targetView w)).
    destruct_world w. mrun_modal. repeat (split; [reflexivity|]). reflexivity.
  - intros w.
    exists (snd (switchTo V_signup w)),
           (snd (acts [ClickSwitchTo V_signup; ClickSwitchTo V_login] w)).
    destruct_world w. mrun_modal. repeat (split; [reflexivity|]). reflexivity.
  - intros w Hvalid.
    exists (snd (submit_reset w)),
           (snd (run_timer (ResetLinkTimer (resetEmail (modal w))) (snd (submit_reset w)))).
    destruct_world w. revert Hvalid. mrun_modal. intros Hvalid. rewrite Hvalid.
    rewrite object_keys_empty.
    cbv beta iota zeta delta [List.length Nat.eqb negb]. mstep.
    repeat (split; [reflexivity|]). reflexivity.
Qed.

(** An instance of C5 where the hypothesis of its third part holds: the
    forgot-password view with a well-formed address. *)
Lemma C5_witness :
  let w := snd (acts [ClickSwitchTo V_forgotPassword; TypeInto "reset-email" "a@b.co"]
                  (initial_world ∅)) in
  validation_errors (modal w) = ∅ /\
  exists w1 w2,
    submit_reset w = (Normal tt, w1) /\
    timers w1 = (timers w ++ [ResetLinkTimer (resetEmail (modal w))])%list /\
    view (modal w1) = view (modal w) /\
    run_timer (ResetLinkTimer (resetEmail (modal w))) w1 = (Normal tt, w2) /\
    view (modal w2) = V_resetSent /\
    formError (modal w2) = JStr "" /\
    validationErrors (modal w2) = ∅ /\
    field_values (modal w2) = field_values (modal w).
Proof.
  intros w.
  assert (Hvalid : validation_errors (modal w) = ∅) by (vm_compute; reflexivity).
  split; [exact Hvalid|].
  exact (proj2 (proj2 C5_view_switch_clears_errors_keeps_fields) w Hvalid).
Defined.

End ViewSwitch.

Section SharedPassword.

Import LoginModal.

Ltac run_act :=
  cbv beta iota zeta delta
    [ act switchTo renderContent renderLogin renderSignup renderForgotPassword
      renderResetSent find_input List.find input_id input_value onChange
      shown_value fmap option_fmap option_map ];
  mstep.

Ltac case_ids :=
  repeat match goal with
         | |- context [String.eqb ?a ?b] =>
             let E := fresh "E" in
             destruct (String.eqb_spec a b) as [E|E]; [try subst|]
         end.

Lemma act_run (a : Action) (w : World) : act a w = (Normal tt, snd (act a w)).
Proof.
  destruct a as [id text|targetView]; destruct_world w.
  - destruct view0; run_act; case_ids; reflexivity.
  - run_act. reflexivity.
Qed.

Lemma acts_cons (a : Action) (l : list Action) (w : World) :
  acts (a :: l) w = acts l (snd (act a w)).
Proof.
  cbn [acts]. unfold mbind, M_bind. rewrite act_run. reflexivity.
Qed.

Lemma act_keeps_password (a : Action) (w : World) :
  ~ types_password a -> password (modal (snd (act a w))) = password (modal w).
Proof.
  destruct a as [id text|targetView]; destruct_world w.
  - cbn [types_password]. intros Hid.
    destruct view0; run_act; case_ids; try reflexivity; exfalso; apply Hid; auto.
  - intros _. run_act. reflexivity.
Qed.

Lemma acts_keep_password (l : list Action) (w : World) :
  Forall (fun a => ~ types_password a) l ->
  password (modal (snd (acts l w))) = password (modal w).
Proof.
  revert w. induction l as [|a l IH]; intros w Hl; [reflexivity|].
  rewrite acts_cons. inversion Hl as [|? ? Ha Hl']; subst.
  rewrite IH by assumption. apply act_keeps_password. exact Ha.
Qed.

Lemma shown_password (w : World) :
  match view (modal w) with
  | V_login => shown_value "password-login" w = Some (password (modal w))
  | V_signup => shown_value "password-signup" w = Some (password (modal w))
  | _ => True
  end.
Proof.
  destruct_world w. destruct view0; run_act; try exact I; reflexivity.
Qed.

Lemma type_password_login (w : World) (p : string) :
  view (modal w) = V_login ->
  password (modal (snd (act (TypeInto "password-login" p) w))) = p.
Proof.
  destruct_world w. mstep. intros ->. run_act. reflexivity.
Qed.

Lemma type_password_signup (w : World) (p : string) :
  view (modal w) = V_signup ->
  password (modal (snd (act (TypeInto "password-signup" p) w))) = p.
Proof.
  destruct_world w. mstep. intros ->. run_act. reflexivity.
Qed.

(** C10. The password inputs of the Login and of the Signup view show the
    same state cell and write to it: (1) in every state both inputs are
    rendered with the value of the one [password] cell; (2) no sequence of
    view switches and of typing into other inputs changes that cell;
    (3) a password typed into the Login view's input is what the Signup
    view's input shows once the modal is on the Signup view, whatever
    switches and other typing came in between; (4) the same from Signup to
    Login. *)
Theorem C10_one_password_cell_for_login_and_signup :
  (forall m : Modal,
     input_value <$> find_input "password-login" (renderLogin m) = Some (password m) /\
     input_value <$> find_input "password-signup" (renderSignup m) = Some (password m)) /\
  (forall (l : list Action) (w : World),
     Forall (fun a => ~ types_password a) l ->
     password (modal (snd (acts l w))) = password (modal w)) /\
  (forall (w : World) (p : string) (l : list Action),
     view (modal w) = V_login ->
     Forall (fun a => ~ types_password a) l ->
     let w' := snd (acts (TypeInto "password-login" p :: l) w) in
     view (modal w') = V_signup ->
     shown_value "password-signup" w' = Some p) /\
  (forall (w : World) (p : string) (l : list Action),
     view (modal w) = V_signup ->
     Forall (fun a => ~ types_password a) l ->
     let w' := snd (acts (TypeInto "password-signup" p :: l) w) in
     view (modal w') = V_login ->
     shown_value "password-login" w' = Some p).
Proof.
  split; [|split; [|split]].
  - intros m. destruct m. split; run_act; reflexivity.
  - exact acts_keep_password.
  - intros w p l Hview Hl w' Hview'.
    pose proof (shown_password w') as Hshown. rewrite Hview' in Hshown.
    rewrite Hshown. f_equal. subst w'. rewrite acts_cons.
    rewrite acts_keep_password by assumption.
    apply type_password_login. exact Hview.
  - intros w p l Hview Hl w' Hview'.
    pose proof (shown_password w') as Hshown. rewrite Hview' in Hshown.
    rewrite Hshown. f_equal. subst w'. rewrite acts_cons.
    rewrite acts_keep_password by assumption.
    apply type_password_signup. exact Hview.
Qed.

(** C10 at a concrete run: "secret1" typed on Login, then the switch to
    Signup and an e-mail typed there. *)
Lemma C10_witness :
  let w := initial_world ∅ in
  let l := [ClickSwitchTo V_signup; TypeInto "email-signup" "a@b.co"] in
  shown_value "password-signup" (snd (acts (TypeInto "password-login" "secret1" :: l) w))
    = Some "secret1" /\
  password (modal (snd (acts l w))) = password (modal w).
Proof.
  intros w l.
  assert (Hl : Forall (fun a => ~ types_password a) l).
  { repeat constructor; cbn [types_password]; intros H; try exact H.
    destruct H as [H|H]; discriminate H. }
  split.
  - apply (proj1 (proj2 (proj2 C10_one_password_cell_for_login_and_signup)) w "secret1" l).
    + reflexivity.
    + exact Hl.
    + vm_compute. reflexivity.
  - apply (proj1 (proj2 C10_one_password_cell_for_login_and_signup) l w). exact Hl.
Defined.

End SharedPassword.

Section ErrorNormalisation.

Lemma getApiErrorMessage_same (error : JsVal) :
  FrontentApi.getApiErrorMessage error = Api.getApiErrorMessage error.
Proof. reflexivity. Qed.

Lemma get_field (v : JsVal) (k : string) :
  v <> JUndefined -> v <> JNull -> get v k = Normal (field v k).
Proof. destruct v; intros; try reflexivity; congruence. Qed.

Lemma get_opt_field (v : JsVal) (k : string) : get_opt v k = Normal (field v k).
Proof. destruct v; reflexivity. Qed.

Lemma truthy_not_nullish (v : JsVal) :
  to_boolean v = true -> v <> JUndefined /\ v <> JNull.
Proof. destruct v; cbn [to_boolean]; intros; split; congruence. Qed.

(** On every value other than [undefined] and [null] the function returns,
    and returns what the specification's wording gives. *)
Lemma getApiErrorMessage_returns (error : JsVal) :
  error <> JUndefined -> error <> JNull ->
  Api.getApiErrorMessage error = Normal (spec_error_message error).
Proof.
  intros Hu Hn.
  unfold Api.getApiErrorMessage, spec_error_message, response_received,
    no_response_received, present, backend_message, status_code_and_text,
    own_message_or_fallback, status_line, js_or.
  destruct (isAxiosError error) eqn:Hax; cbn [andb negb].
  - rewrite (get_field error "response") by assumption. cbn [mbind Completion_bind].
    destruct (to_boolean (field error "response")) eqn:Hresp; cbn [andb negb].
    + destruct (truthy_not_nullish _ Hresp) as [Hru Hrn].
      rewrite !(get_field (field error "response")) by assumption.
      cbn [mbind Completion_bind].
      rewrite get_opt_field. cbn [mbind Completion_bind].
      destruct (to_boolean (field (field (field error "response") "data") "message"));
        reflexivity.
    + rewrite (get_field error "request") by assumption. cbn [mbind Completion_bind].
      destruct (to_boolean (field error "request")); [reflexivity|].
      rewrite (get_field error "message") by assumption. cbn [mbind Completion_bind].
      destruct (to_boolean (field error "message")); reflexivity.
  - rewrite (get_field error "message") by assumption. cbn [mbind Completion_bind].
    destruct (to_boolean (field error "message")); reflexivity.
Qed.

(** What it returns is never a value that [||] would discard: if it is a
    string, it is not empty. *)
Lemma spec_error_message_truthy (error : JsVal) :
  to_boolean (spec_error_message error) = true.
Proof.
  unfold spec_error_message, present, status_code_and_text.
  destruct (response_received error).
  - destruct (to_boolean (backend_message error)) eqn:H; [exact H|reflexivity].
  - destruct (no_response_received error); [reflexivity|].
    destruct (to_boolean (field error "message")) eqn:H; [exact H|reflexivity].
Qed.

(** C6. For every error object, [getApiErrorMessage] returns the message the
    specification describes: the backend's message field when a response
    with such a field was received, else "Error: <status> - <statusText>";
    the fixed no-response string when the request got no response; and
    otherwise the error's own message or the generic fallback.  The inputs
    the specification names come last. *)
Theorem C6_getApiErrorMessage_cases :
  (forall props : gmap string JsVal,
     Api.getApiErrorMessage (JObj props) = Normal (spec_error_message (JObj props)) /\
     FrontentApi.getApiErrorMessage (JObj props) = Normal (spec_error_message (JObj props))) /\
  (forall request : gmap string JsVal,
     Api.getApiErrorMessage
       (JObj {[ "isAxiosError" := JBool true;
                "message" := JStr "Request failed with status code 401";
                "request" := JObj request;
                "response" := JObj {[ "status" := JNum 401;
                                      "data" := JObj {[ "message" := JStr "Invalid credentials" ]} ]} ]})
     = Normal (JStr "Invalid credentials") /\
     Api.getApiErrorMessage
       (JObj {[ "isAxiosError" := JBool true;
                "message" := JStr "Request failed with status code 502";
                "request" := JObj request;
                "response" := JObj {[ "status" := JNum 502;
                                      "statusText" := JStr "Bad Gateway";
                                      "data" := JStr "" ]} ]})
     = Normal (JStr "Error: 502 - Bad Gateway") /\
     Api.getApiErrorMessage
       (JObj {[ "isAxiosError" := JBool true;
                "message" := JStr "Network Error";
                "request" := JObj request ]})
     = Normal (JStr "No response from server. Please check your network connection.")) /\
  Api.getApiErrorMessage (JObj {[ "message" := JStr "boom" ]}) = Normal (JStr "boom") /\
  Api.getApiErrorMessage (JObj ∅) = Normal (JStr "An unexpected error occurred.").
Proof.
  split; [|split; [|split]].
  - intros props.
    assert (H : Api.getApiErrorMessage (JObj props)
                = Normal (spec_error_message (JObj props)))
      by (apply getApiErrorMessage_returns; discriminate).
    split; [exact H|]. rewrite <- H. apply getApiErrorMessage_same.
  - intros request. split; [|split]; vm_compute; reflexivity.
  - vm_compute; reflexivity.
  - vm_compute; reflexivity.
Qed.

(** C7 fails on the code.  [getApiErrorMessage(null)] and
    [getApiErrorMessage(undefined)] reach [error.message] and throw a
    [TypeError], in both clients; and an error whose [message] is not a
    string comes back as it is, not as a string. *)
Theorem C7_getApiErrorMessage_throws_on_null :
  Api.getApiErrorMessage JNull
    = Throw (type_error "Cannot read properties of null (reading 'message')") /\
  Api.getApiErrorMessage JUndefined
    = Throw (type_error "Cannot read properties of undefined (reading 'message')") /\
  FrontentApi.getApiErrorMessage JNull
    = Throw (type_error "Cannot read properties of null (reading 'message')") /\
  FrontentApi.getApiErrorMessage JUndefined
    = Throw (type_error "Cannot read properties of undefined (reading 'message')") /\
  Api.getApiErrorMessage (JObj {[ "message" := JNum 42 ]}) = Normal (JNum 42).
Proof. repeat split; vm_compute; reflexivity. Qed.

End ErrorNormalisation.

Section HttpClient.

Lemma api_interceptor_run (config : Request) (w : World) :
  Api.request_interceptor config w = (Normal (sent_by_api w config), w).
Proof.
  destruct_world w. unfold sent_by_api, Api.request_interceptor. mstep.
  match goal with |- context [to_boolean ?t] => destruct (to_boolean t) end;
    reflexivity.
Qed.

Lemma sent_by_api_token (config : Request) (w : World) (tok : string) :
  localStorage w !! "divine_token" = Some tok -> tok <> "" ->
  sent_by_api w config = set_header "Authorization" ("Bearer " +:+ tok) config.
Proof.
  destruct_world w. unfold sent_by_api, Api.request_interceptor. mstep.
  intros Htok Hne. rewrite Htok. cbn [from_option].
  apply to_boolean_JStr in Hne. rewrite Hne. reflexivity.
Qed.

Lemma sent_by_api_no_token (config : Request) (w : World) :
  localStorage w !! "divine_token" = None -> sent_by_api w config = config.
Proof.
  destruct_world w. unfold sent_by_api, Api.request_interceptor. mstep.
  intros Htok. rewrite Htok. reflexivity.
Qed.

Lemma api_request_run (transport : Transport) (config : Request) (w : World) :
  Api.request transport config w
  = (transport (sent_by_api w config),
     snd (emit (EvRequest (sent_by_api w config)) w)).
Proof.
  unfold Api.request. unfold mbind at 1. unfold M_bind.
  rewrite api_interceptor_run. mstep. reflexivity.
Qed.

(** The client of [src/services/api.ts] does what C8 asks: with a token in
    storage, whatever request is made leaves with that token as its bearer
    authorization, and exactly that request reaches the transport. *)
Lemma api_request_carries_bearer
    (transport : Transport) (config : Request) (w : World) (tok : string) :
  localStorage w !! "divine_token" = Some tok -> tok <> "" ->
  exists sent,
    requests (trace (snd (Api.request transport config w)))
      = (requests (trace w) ++ [sent])%list /\
    headers sent !! "Authorization" = Some ("Bearer " +:+ tok) /\
    method sent = method config /\ url sent = url config /\ data sent = data config.
Proof.
  intros Htok Hne. exists (sent_by_api w config).
  rewrite api_request_run, (sent_by_api_token config w tok Htok Hne).
  destruct_world w. mstep. rewrite requests_app.
  split; [reflexivity|]. split; [|repeat split].
  unfold set_header. cbn [headers]. apply lookup_insert_eq.
Qed.

Lemma frontent_error_interceptor_run (error : JsVal) (w : World) :
  exists e' w',
    FrontentApi.response_error_interceptor error w = (Throw e', w') /\
    localStorage w' = localStorage w /\ user w' = user w /\
    requests (trace w') = requests (trace w).
Proof.
  unfold FrontentApi.response_error_interceptor. destruct_world w.
  assert (Hnullish : error = JUndefined \/ error = JNull \/
                     (error <> JUndefined /\ error <> JNull)).
  { destruct error; auto; right; right; split; discriminate. }
  destruct Hnullish as [->|[->|[Hu Hn]]].
  - do 2 eexists. split; [cbn [get]; mstep; reflexivity|]. mstep. repeat split.
  - do 2 eexists. split; [cbn [get]; mstep; reflexivity|]. mstep. repeat split.
  - rewrite !(get_field error) by assumption.
    mstep. rewrite !get_opt_field. mstep.
    destruct (to_boolean (field (field error "response") "data")).
    all: do 2 eexists; (split; [reflexivity|]); mstep; rewrite requests_app;
      repeat split; apply app_nil_r.
Qed.

Lemma frontent_request_sends_unchanged
    (transport : Transport) (config : Request) (w : World) :
  requests (trace (snd (FrontentApi.request transport config w)))
  = (requests (trace w) ++ [config])%list.
Proof.
  unfold FrontentApi.request, FrontentApi.request_interceptor,
    FrontentApi.response_interceptor.
  destruct_world w. mstep.
  destruct (transport config) as [response|error].
  - destruct (get response "status") as [status|e1]; mstep;
      [|rewrite !requests_app; cbn [requests omap list_omap app];
        rewrite !app_nil_r; reflexivity].
    destruct (get response "config") as [cfg|e2]; mstep;
      [|rewrite !requests_app; cbn [requests omap list_omap app];
        rewrite !app_nil_r; reflexivity].
    destruct (get cfg "url") as [u|e3]; mstep;
      [|rewrite !requests_app; cbn [requests omap list_omap app];
        rewrite !app_nil_r; reflexivity].
    destruct (get response "data") as [body|e4]; mstep;
      rewrite !requests_app; cbn [requests omap list_omap app];
      rewrite !app_nil_r; reflexivity.
  - match goal with
    | |- context [FrontentApi.response_error_interceptor error ?w1] =>
        destruct (frontent_error_interceptor_run error w1)
          as (e' & w' & Hrun & _ & _ & Hreq);
        rewrite Hrun; revert Hreq
    end.
    mstep. intros ->. rewrite !requests_app. cbn [requests omap list_omap app].
    rewrite !app_nil_r. reflexivity.
Qed.

(** C8 fails on the client of [src/frontent/services/api.ts].  Its only
    request interceptor logs and returns the configuration it was given, so
    (1) every request reaches the transport exactly as the endpoint built
    it, whatever the storage holds; (2) with the token "abc" in storage,
    [getMe()] leaves without an [Authorization] header, whatever the
    transport then answers; (3) the same call through the client of
    [src/services/api.ts] carries "Bearer abc". *)
Theorem C8_frontent_client_sends_no_bearer :
  (forall (transport : Transport) (config : Request) (w : World),
     requests (trace (snd (FrontentApi.request transport config w)))
     = (requests (trace w) ++ [config])%list) /\
  (forall transport : Transport,
     let w := initial_world {[ "divine_token" := "abc" ]} in
     localStorage w !! "divine_token" = Some "abc" /\
     exists sent,
       requests (trace (snd (FrontentApi.getMe transport w))) = [sent] /\
       url sent = "/auth/me" /\
       headers sent !! "Authorization" = None) /\
  (forall transport : Transport,
     let w := initial_world {[ "divine_token" := "abc" ]} in
     exists sent,
       requests (trace (snd (Api.getMe transport w))) = [sent] /\
       url sent = "/auth/me" /\
       headers sent !! "Authorization" = Some "Bearer abc").
Proof.
  split; [exact frontent_request_sends_unchanged|]. split.
  - intros transport w. split; [vm_compute; reflexivity|].
    exists (get_config "/auth/me").
    unfold FrontentApi.getMe, FrontentApi.api_get.
    rewrite frontent_request_sends_unchanged.
    split; [reflexivity|]. split; [reflexivity|]. apply lookup_empty.
  - intros transport w.
    assert (Htok : localStorage w !! "divine_token" = Some "abc")
      by (vm_compute; reflexivity).
    destruct (api_request_carries_bearer transport (get_config "/auth/me") w "abc"
                Htok ltac:(discriminate)) as (sent & Hreq & Hauth & _ & Hurl & _).
    exists sent. split; [exact Hreq|]. split; [exact Hurl|exact Hauth].
Qed.

End HttpClient.

Section SessionStore.

Import AuthContext.

Variable transport : Transport.

(** The three ways [loadUser] ends, from the state after mounting. *)
Lemma loadUser_without_token (storage : gmap string string) :
  to_boolean (from_option JStr JNull (storage !! "divine_token")) = false ->
  loadUser transport (initial_world storage)
  = (Normal tt,
     {| localStorage := storage; user := JNull; isLoading := false;
        modal := initial_modal; timers := []; trace := [EvSetIsLoading false] |}).
Proof.
  intros Hfalsy. unfold loadUser, initial_world. mstep. rewrite Hfalsy. reflexivity.
Qed.

Lemma loadUser_fetched (storage : gmap string string) (resp body fetched : JsVal) :
  let req := sent_by_api (initial_world storage) (get_config "/auth/me") in
  to_boolean (from_option JStr JNull (storage !! "divine_token")) = true ->
  transport req = Normal resp ->
  get resp "data" = Normal body ->
  get body "data" = Normal fetched ->
  loadUser transport (initial_world storage)
  = (Normal tt,
     {| localStorage := storage; user := fetched; isLoading := false;
        modal := initial_modal; timers := [];
        trace := [EvRequest req; EvSetUser fetched; EvSetIsLoading false] |}).
Proof.
  intros req Htruthy Hresp Hbody Hfetched. subst req. revert Hresp.
  unfold loadUser, Api.getMe, Api.api_get, initial_world. mstep. intros Hresp.
  rewrite Htruthy. rewrite api_request_run. mstep.
  rewrite Hresp. mstep. rewrite Hbody. mstep. rewrite Hfetched. mstep.
  reflexivity.
Qed.

Lemma loadUser_fetch_failed (storage : gmap string string) :
  let req := sent_by_api (initial_world storage) (get_config "/auth/me") in
  to_boolean (from_option JStr JNull (storage !! "divine_token")) = true ->
  fetch_fails (transport req) ->
  loadUser transport (initial_world storage)
  = (Normal tt,
     {| localStorage := delete "divine_token" storage; user := JNull;
        isLoading := false; modal := initial_modal; timers := [];
        trace := [EvRequest req; EvConsole "Failed to load user session";
                  EvSetUser JNull; EvSetIsLoading false] |}).
Proof.
  intros req Htruthy Hfails. subst req. revert Hfails.
  unfold loadUser, Api.getMe, Api.api_get, initial_world, fetch_fails. mstep.
  rewrite Htruthy. rewrite api_request_run. mstep.
  match goal with |- context [transport ?r] => destruct (transport r) as [resp|e] end;
    mstep; [|reflexivity].
  destruct (get resp "data") as [body|e]; mstep; [|reflexivity].
  destruct (get body "data") as [fetched|e]; mstep; [|reflexivity].
  intros [].
Qed.

Lemma fetch_outcome (outcome : Completion JsVal) :
  fetch_fails outcome \/
  exists resp body fetched,
    outcome = Normal resp /\ get resp "data" = Normal body /\
    get body "data" = Normal fetched.
Proof.
  unfold fetch_fails. destruct outcome as [resp|e]; [|left; exact I].
  destruct (get resp "data") as [body|e] eqn:Hbody; [|left; exact I].
  destruct (get body "data") as [fetched|e] eqn:Hfetched; [|left; exact I].
  right. exists resp, body, fetched. auto.
Qed.

Lemma token_truthy (storage : gmap string string) (tok : string) :
  storage !! "divine_token" = Some tok -> tok <> "" ->
  to_boolean (from_option JStr JNull (storage !! "divine_token")) = true.
Proof. intros -> Hne. cbn [from_option]. apply to_boolean_JStr. exact Hne. Qed.

(** C1. Startup, from the state after mounting (no user, [isLoading] true)
    and any storage and transport: [loadUser] returns, [isLoading] ends
    false, and [setIsLoading] is called exactly once, with [false].
    Without a persisted token the state is Anonymous and nothing is sent.
    With a token the one request sent carries it; if that request resolves
    with a user, the user is stored (Authenticated) and storage is
    untouched; if it is rejected, with whatever error, the token is removed
    and the state is Anonymous. *)
Theorem C1_startup_settles_once (storage : gmap string string) :
  let w0 := initial_world storage in
  let req := sent_by_api w0 (get_config "/auth/me") in
  exists w',
    loadUser transport w0 = (Normal tt, w') /\
    isLoading w' = false /\
    List.filter (is_setIsLoading false) (trace w') = [EvSetIsLoading false] /\
    List.filter (is_setIsLoading true) (trace w') = [] /\
    (storage !! "divine_token" = None ->
       user w' = JNull /\ isAuthenticated w' = false /\
       localStorage w' = storage /\ requests (trace w') = []) /\
    (forall tok : string,
       storage !! "divine_token" = Some tok -> tok <> "" ->
       requests (trace w') = [req] /\
       headers req !! "Authorization" = Some ("Bearer " +:+ tok) /\
       (forall resp body fetched : JsVal,
          transport req = Normal resp ->
          get resp "data" = Normal body ->
          get body "data" = Normal fetched ->
          user w' = fetched /\
          isAuthenticated w' = to_boolean fetched /\
          (is_object fetched = true -> isAuthenticated w' = true) /\
          localStorage w' = storage) /\
       (forall e : JsVal,
          transport req = Throw e ->
          user w' = JNull /\ isAuthenticated w' = false /\
          localStorage w' = delete "divine_token" storage /\
          localStorage w' !! "divine_token" = None)).
Proof.
  intros w0 req.
  destruct (to_boolean (from_option JStr JNull (storage !! "divine_token")))
    eqn:Htruthy.
  - assert (Hauth : forall tok, storage !! "divine_token" = Some tok -> tok <> "" ->
                      headers req !! "Authorization" = Some ("Bearer " +:+ tok)).
    { intros tok Htok Hne. subst req.
      rewrite (sent_by_api_token _ w0 tok) by assumption.
      unfold set_header. cbn [headers]. apply lookup_insert_eq. }
    destruct (fetch_outcome (transport req))
      as [Hfails|(resp & body & fetched & Hresp & Hbody & Hfetched)].
    + eexists. split; [apply loadUser_fetch_failed; assumption|].
      fold w0. fold req. mstep.
      split; [reflexivity|]. split; [reflexivity|]. split; [reflexivity|].
      split.
      { intros Hnone. rewrite Hnone in Htruthy. discriminate Htruthy. }
      intros tok Htok Hne. split; [reflexivity|]. split; [auto|]. split.
      * intros resp body fetched Hresp Hbody Hfetched. exfalso.
        unfold fetch_fails in Hfails. rewrite Hresp, Hbody, Hfetched in Hfails.
        exact Hfails.
      * intros e _. split; [reflexivity|]. split; [reflexivity|].
        split; [reflexivity|]. apply lookup_delete_eq.
    + eexists. split; [apply (loadUser_fetched storage resp body fetched); assumption|].
      fold w0. fold req. mstep.
      split; [reflexivity|]. split; [reflexivity|]. split; [reflexivity|].
      split.
      { intros Hnone. rewrite Hnone in Htruthy. discriminate Htruthy. }
      intros tok Htok Hne. split; [reflexivity|]. split; [auto|]. split.
      * intros resp' body' fetched' Hresp' Hbody' Hfetched'.
        rewrite Hresp in Hresp'. injection Hresp' as <-.
        rewrite Hbody in Hbody'. injection Hbody' as <-.
        rewrite Hfetched in Hfetched'. injection Hfetched' as <-.
        split; [reflexivity|]. split; [reflexivity|]. split; [|reflexivity].
        destruct fetched; cbn [is_object to_boolean]; congruence.
      * intros e He. rewrite Hresp in He. discriminate He.
  - eexists. split; [apply loadUser_without_token; assumption|]. mstep.
    split; [reflexivity|]. split; [reflexivity|]. split; [reflexivity|].
    split; [intros _; repeat split|].
    intros tok Htok Hne. rewrite (token_truthy storage tok Htok Hne) in Htruthy.
    discriminate Htruthy.
Qed.

End SessionStore.

(** C1 at a concrete startup: the token "abc" is in storage and the
    backend answers the request that carries it with the user's record. *)
Lemma C1_witness :
  exists w',
    AuthContext.loadUser backend_knows_abc (initial_world {[ "divine_token" := "abc" ]})
      = (Normal tt, w') /\
    isLoading w' = false /\ user w' = asha /\ isAuthenticated w' = true.
Proof.
  destruct (C1_startup_settles_once backend_knows_abc {[ "divine_token" := "abc" ]})
    as (w' & Hrun & Hloading & _ & _ & _ & Htoken).
  exists w'. split; [exact Hrun|]. split; [exact Hloading|].
  destruct (Htoken "abc") as (_ & _ & Hok & _).
  - vm_compute. reflexivity.
  - discriminate.
  - destruct (Hok (JObj {[ "data" := JObj {[ "data" := asha ]} ]})
                  (JObj {[ "data" := asha ]}) asha) as (Huser & _ & Hauth & _).
    + vm_compute. reflexivity.
    + vm_compute. reflexivity.
    + vm_compute. reflexivity.
    + split; [exact Huser|]. apply Hauth. reflexivity.
Defined.


Section Login.

Import AuthContext.

Variable transport : Transport.

Lemma destructure_object (body : JsVal) :
  is_object body = true ->
  destructure_token_user body = Normal (field body "token", field body "user").
Proof. destruct body; try discriminate. reflexivity. Qed.

Lemma login_resolved (email password : string) (w : World) (resp body token u : JsVal) :
  transport (login_request w email password) = Normal resp ->
  get resp "data" = Normal body ->
  destructure_token_user body = Normal (token, u) ->
  login transport email password w
  = (Normal {| success := true; error := None |},
     {| localStorage := <[ "divine_token" := to_string token ]> (localStorage w);
        user := u; isLoading := isLoading w; modal := modal w; timers := timers w;
        trace := (trace w ++ [EvRequest (login_request w email password);
                              EvSetUser u])%list |}).
Proof.
  unfold login_request, credentials. intros Hresp Hbody Hdestr.
  unfold login, Api.loginUser, Api.api_post.
  unfold try_catch, mbind at 1, M_bind at 1.
  rewrite api_request_run, Hresp.
  destruct_world w. mstep. rewrite Hbody. mstep. rewrite Hdestr. mstep.
  rewrite <- app_assoc. reflexivity.
Qed.

Lemma login_rejected (email password : string) (w : World) (e : JsVal) :
  transport (login_request w email password) = Throw e ->
  login transport email password w
  = (match Api.getApiErrorMessage e with
     | Normal message => Normal {| success := false; error := Some message |}
     | Throw e' => Throw e'
     end,
     snd (emit (EvRequest (login_request w email password)) w)).
Proof.
  unfold login_request, credentials. intros Hresp.
  unfold login, Api.loginUser, Api.api_post.
  unfold try_catch, mbind at 1, M_bind at 1.
  rewrite api_request_run, Hresp.
  destruct_world w. mstep.
  destruct (Api.getApiErrorMessage e); reflexivity.
Qed.

(** C2. [login], in any state.  If the login endpoint resolves with a body
    that carries a token and a user, the token is what storage then holds
    under the token key, the user is the stored user, and the result is
    [{ success: true }] with no [error] key.  If the endpoint is rejected
    with an error object, the result is [{ success: false, error }] where
    [error] is the normalised message of the rejection, the one section 4.1
    of the specification describes ([spec_error_message]), which is what
    [getApiErrorMessage] returns and is never empty; and whatever the
    rejection is, storage and the stored user are what they were before the
    call. *)
Theorem C2_login_contract (email password : string) (w : World) :
  (forall (resp body u : JsVal) (tok : string),
     transport (login_request w email password) = Normal resp ->
     get resp "data" = Normal body ->
     is_object body = true ->
     field body "token" = JStr tok ->
     field body "user" = u ->
     exists w',
       login transport email password w
         = (Normal {| success := true; error := None |}, w') /\
       localStorage w' = <[ "divine_token" := tok ]> (localStorage w) /\
       localStorage w' !! "divine_token" = Some tok /\
       user w' = u /\
       isAuthenticated w' = to_boolean u /\
       isLoading w' = isLoading w) /\
  (forall e : JsVal,
     transport (login_request w email password) = Throw e ->
     is_object e = true ->
     exists (message : JsVal) (w' : World),
       login transport email password w
         = (Normal {| success := false; error := Some message |}, w') /\
       message = spec_error_message e /\
       Api.getApiErrorMessage e = Normal message /\
       to_boolean message = true /\
       message <> JStr "" /\
       localStorage w' = localStorage w /\
       user w' = user w /\
       isLoading w' = isLoading w) /\
  (forall e : JsVal,
     transport (login_request w email password) = Throw e ->
     localStorage (snd (login transport email password w)) = localStorage w /\
     user (snd (login transport email password w)) = user w).
Proof.
  split; [|split].
  - intros resp body u tok Hresp Hbody Hobj Htok Hu.
    eexists. split.
    { apply (login_resolved email password w resp body (JStr tok) u Hresp Hbody).
      rewrite destructure_object by assumption. rewrite Htok, Hu. reflexivity. }
    mstep. cbn [to_string].
    split; [reflexivity|]. split; [apply lookup_insert_eq|]. repeat split.
  - intros e Hresp Hobj.
    assert (Hmsg : Api.getApiErrorMessage e = Normal (spec_error_message e)).
    { apply getApiErrorMessage_returns; destruct e; discriminate. }
    exists (spec_error_message e), (snd (emit (EvRequest (login_request w email password)) w)).
    split; [rewrite (login_rejected email password w e Hresp), Hmsg; reflexivity|].
    split; [reflexivity|]. split; [exact Hmsg|].
    pose proof (spec_error_message_truthy e) as Htruthy.
    split; [exact Htruthy|].
    split; [intros Heq; rewrite Heq in Htruthy; discriminate Htruthy|].
    destruct_world w. mstep. repeat split.
  - intros e Hresp. rewrite (login_rejected email password w e Hresp).
    destruct_world w. mstep. split; reflexivity.
Qed.

End Login.

(** C2 at two concrete calls on a fresh session: the right and the wrong
    password. *)
Lemma C2_witness :
  let w := initial_world ∅ in
  (exists w',
     AuthContext.login backend_accepts_asha "asha@example.in" "secret1" w
       = (Normal {| AuthContext.success := true; AuthContext.error := None |}, w') /\
     localStorage w' !! "divine_token" = Some "tok-1" /\
     user w' = asha) /\
  (exists message w',
     AuthContext.login backend_accepts_asha "asha@example.in" "letmein" w
       = (Normal {| AuthContext.success := false; AuthContext.error := Some message |}, w') /\
     message = JStr "Invalid credentials" /\
     Api.getApiErrorMessage invalid_credentials = Normal message /\
     localStorage w' = localStorage w /\ user w' = user w).
Proof.
  intros w. split.
  - destruct (proj1 (C2_login_contract backend_accepts_asha "asha@example.in" "secret1" w)
                (JObj {[ "status" := JNum 200;
                         "data" := JObj {[ "token" := JStr "tok-1"; "user" := asha ]} ]})
                (JObj {[ "token" := JStr "tok-1"; "user" := asha ]}) asha "tok-1")
      as (w' & Hrun & _ & Htok & Huser & _).
    + vm_compute. reflexivity.
    + vm_compute. reflexivity.
    + reflexivity.
    + vm_compute. reflexivity.
    + vm_compute. reflexivity.
    + exists w'. split; [exact Hrun|]. split; [exact Htok|exact Huser].
  - destruct (proj1 (proj2 (C2_login_contract backend_accepts_asha
                              "asha@example.in" "letmein" w))
                invalid_credentials)
      as (message & w' & Hrun & Hspec & Hmsg & _ & _ & Hstorage & Huser & _).
    + vm_compute. reflexivity.
    + reflexivity.
    + exists message, w'. split; [exact Hrun|].
      split; [rewrite Hspec; vm_compute; reflexivity|]. split; [exact Hmsg|].
      split; [exact Hstorage|exact Huser].
Defined.


Section Submission.

Import AuthContext LoginModal.

Variable t : string -> string.

Lemma object_keys_nonempty (errors : gmap string string) (k v : string) :
  errors !! k = Some v -> (List.length (object_keys errors) =? 0)%nat = false.
Proof.
  intros Hk. unfold object_keys. rewrite length_fmap.
  apply Nat.eqb_neq. intros Hlen.
  apply length_zero_iff_nil, map_to_list_empty_iff in Hlen.
  rewrite Hlen, lookup_empty in Hk. discriminate Hk.
Qed.

(** What [validate] finds for the identifier of C4. *)
Lemma validation_errors_bad_identifier (m : Modal) :
  view m = V_login ->
  loginIdentifier m = "not-an-email-or-phone" ->
  validation_errors m
  = if (String.length (password m) <? 6)%nat
    then <[ "password" := password_error ]> {[ "loginIdentifier" := identifier_error ]}
    else {[ "loginIdentifier" := identifier_error ]}.
Proof.
  destruct m. cbn [view loginIdentifier password]. intros -> ->.
  unfold validation_errors. cbn [view loginIdentifier password].
  assert (Htrim : to_boolean (JStr (Regex.trim "not-an-email-or-phone")) = true)
    by (vm_compute; reflexivity).
  assert (Hemail : Regex.test Regex.email_pattern "not-an-email-or-phone" = false)
    by (vm_compute; reflexivity).
  assert (Hmobile : Regex.test Regex.mobile_pattern "not-an-email-or-phone" = false)
    by (vm_compute; reflexivity).
  rewrite Htrim, Hemail, Hmobile. cbn [negb andb].
  destruct (decide (V_login = V_login)) as [_|Hne]; [|congruence].
  destruct (decide (V_login = V_signup)) as [Heq|_]; [discriminate Heq|].
  destruct (decide (V_login = V_forgotPassword)) as [Heq|_]; [discriminate Heq|].
  reflexivity.
Qed.

(** A submission that fails validation stops after [validate]: whatever
    [login] would do, it is not called. *)
Lemma handleLogin_blocked
    (login : string -> string -> M AuthResult) (m : Modal) (user : JsVal) (w : World) :
  (List.length (object_keys (validation_errors m)) =? 0)%nat = false ->
  handleLogin t login m user w
  = (Normal tt, snd (setValidationErrors (validation_errors m)
                       (snd (setFormError (JStr "") w)))).
Proof.
  intros Hblocked. unfold handleLogin, validate. destruct_world w. mstep.
  rewrite Hblocked. reflexivity.
Qed.

(** C4, as the code has it.  On the Login view with the identifier
    "not-an-email-or-phone" and any password: validation reports the
    identifier, the submission stops there, and nothing is sent, since
    [login] is not called whatever it is.  The identifier error is the only
    error when the password has six characters or more; a shorter password
    is reported as well. *)
Theorem C4_bad_identifier_blocks_login (m : Modal) :
  view m = V_login ->
  loginIdentifier m = "not-an-email-or-phone" ->
  validation_errors m !! "loginIdentifier" = Some identifier_error /\
  (6 <= String.length (password m) ->
     validation_errors m = {[ "loginIdentifier" := identifier_error ]}) /\
  (String.length (password m) < 6 ->
     validation_errors m
     = <[ "password" := password_error ]> {[ "loginIdentifier" := identifier_error ]}) /\
  (forall (login : string -> string -> M AuthResult) (user : JsVal) (w : World),
     exists w',
       handleLogin t login m user w = (Normal tt, w') /\
       trace w' = (trace w ++ [EvSetFormError (JStr "")])%list /\
       requests (trace w') = requests (trace w) /\
       callbacks (trace w') = callbacks (trace w) /\
       localStorage w' = localStorage w /\
       State.user w' = State.user w /\
       validationErrors (modal w') = validation_errors m /\
       formError (modal w') = JStr "" /\
       isSubmitting (modal w') = isSubmitting (modal w)).
Proof.
  intros Hview Hident.
  pose proof (validation_errors_bad_identifier m Hview Hident) as Herrors.
  assert (Hlookup : validation_errors m !! "loginIdentifier" = Some identifier_error).
  { rewrite Herrors. destruct (String.length (password m) <? 6)%nat.
    - rewrite lookup_insert_ne by discriminate. apply lookup_singleton_eq.
    - apply lookup_singleton_eq. }
  split; [exact Hlookup|]. split; [|split].
  - intros Hlen. rewrite Herrors.
    destruct (Nat.ltb_spec (String.length (password m)) 6); [lia|reflexivity].
  - intros Hlen. rewrite Herrors.
    destruct (Nat.ltb_spec (String.length (password m)) 6); [reflexivity|lia].
  - intros login user w. eexists. split.
    { apply handleLogin_blocked. eapply object_keys_nonempty. exact Hlookup. }
    destruct_world w. mstep. rewrite requests_app, callbacks_app.
    split; [reflexivity|]. split; [apply app_nil_r|]. split; [apply app_nil_r|].
    repeat split.
Qed.

(** A submission that passes validation, as one equation: the flag goes
    up, [login] runs, the flag goes down, and the branch is chosen on
    [result.success] and on the [user] of the handler's closure. *)
Lemma handleLogin_validated
    (login : string -> string -> M AuthResult) (m : Modal) (user : JsVal) (w : World)
    (result : AuthResult) (w2 : World) :
  validation_errors m = ∅ ->
  login (loginIdentifier m) (password m)
    (snd (setIsSubmitting true
            (snd (setValidationErrors ∅ (snd (setFormError (JStr "") w))))))
  = (Normal result, w2) ->
  handleLogin t login m user w
  = (if success result && to_boolean user then onLoginSuccess user
     else setFormError (js_or (result_error result)
                              (JStr (t "loginModal.invalidCredentials"))))
      (snd (setIsSubmitting false w2)).
Proof.
  intros Hvalid. unfold handleLogin, validate. rewrite Hvalid, object_keys_empty.
  destruct_world w. mstep. cbv beta iota delta [List.length Nat.eqb negb].
  intros ->. destruct_world w2. mstep. reflexivity.
Qed.

(** C3 fails on the code after a successful login or signup.  A visitor
    who is not logged in types valid credentials and submits; the backend
    accepts them.  The session store then holds the new user and the token,
    but [handleLogin] tests the [user] of its own closure, which is still
    [null]: [onLoginSuccess] is never called and the form shows the
    "invalid credentials" text.  [handleSignup] does the same with its
    generic text.  And when somebody was logged in already, the callback
    receives that earlier user, not the one who just logged in. *)
Theorem C3_success_branch_reads_stale_user :
  (let w := snd (acts [TypeInto "login-identifier" "asha@example.in";
                      TypeInto "password-login" "secret1"] (initial_world ∅)) in
   exists w',
     submit_login t (AuthContext.login backend_accepts_asha) w = (Normal tt, w') /\
     State.user w' = asha /\
     localStorage w' !! "divine_token" = Some "tok-1" /\
     callbacks (trace w') = [] /\
     formError (modal w') = JStr (t "loginModal.invalidCredentials") /\
     trace w' =
       [EvSetFormError (JStr ""); EvSetIsSubmitting true;
        EvRequest (post_config "/auth/login"
                     (JObj {[ "email" := JStr "asha@example.in";
                              "password" := JStr "secret1" ]}));
        EvSetUser asha; EvSetIsSubmitting false;
        EvSetFormError (JStr (t "loginModal.invalidCredentials"))]) /\
  (let w := snd (acts [ClickSwitchTo V_signup;
                      TypeInto "name" "Asha Rao";
                      TypeInto "email-signup" "asha@example.in";
                      TypeInto "mobile" "9876543210";
                      TypeInto "password-signup" "secret1"] (initial_world ∅)) in
   exists w',
     submit_signup t (AuthContext.signup backend_accepts_asha) w = (Normal tt, w') /\
     State.user w' = asha /\
     localStorage w' !! "divine_token" = Some "tok-1" /\
     callbacks (trace w') = [] /\
     formError (modal w') = JStr (t "loginModal.error.generic")) /\
  (let w := snd (acts [TypeInto "login-identifier" "asha@example.in";
                      TypeInto "password-login" "secret1"]
                   (snd (setUser (JObj {[ "name" := JStr "Bina" ]}) (initial_world ∅)))) in
   exists w',
     submit_login t (AuthContext.login backend_accepts_asha) w = (Normal tt, w') /\
     State.user w' = asha /\
     callbacks (trace w') = [JObj {[ "name" := JStr "Bina" ]}]).
Proof.
  split; [|split].
  - intros w.
    exists (snd (submit_login t (AuthContext.login backend_accepts_asha) w)).
    vm_compute. repeat split.
  - intros w.
    exists (snd (submit_signup t (AuthContext.signup backend_accepts_asha) w)).
    vm_compute. repeat split.
  - intros w.
    exists (snd (submit_login t (AuthContext.login backend_accepts_asha) w)).
    vm_compute. repeat split.
Qed.

End Submission.

(** C4 with the password "secret1", and a [login] that would succeed. *)
Lemma C4_witness :
  let m := {| view := V_login; loginIdentifier := "not-an-email-or-phone";
              name := ""; email := ""; mobile := ""; resetEmail := "";
              password := "secret1"; formError := JStr "";
              validationErrors := ∅; isSubmitting := false |} in
  LoginModal.validation_errors m = {[ "loginIdentifier" := identifier_error ]}.
Proof.
  intros m.
  apply (proj1 (proj2 (C4_bad_identifier_blocks_login (fun key => key) m eq_refl eq_refl))).
  unfold m. cbn [password String.length]. lia.
Defined.

(** C4 as stated fails: with the password "abc" the errors are two. *)
Lemma C4_counterexample :
  let m := {| view := V_login; loginIdentifier := "not-an-email-or-phone";
              name := ""; email := ""; mobile := ""; resetEmail := "";
              password := "abc"; formError := JStr "";
              validationErrors := ∅; isSubmitting := false |} in
  size (LoginModal.validation_errors m) = 2 /\
  LoginModal.validation_errors m !! "password" = Some password_error /\
  ~ (exists msg : string,
       LoginModal.validation_errors m = {[ "loginIdentifier" := msg ]}).
Proof.
  intros m.
  assert (Hpw : LoginModal.validation_errors m !! "password" = Some password_error)
    by (vm_compute; reflexivity).
  split; [vm_compute; reflexivity|]. split; [exact Hpw|].
  intros [msg Heq]. rewrite Heq in Hpw.
  rewrite lookup_singleton_ne in Hpw by discriminate. discriminate Hpw.
Qed.

(* ===================================================================== *)
(** ** Further properties of the session store *)
(* ===================================================================== *)

Section SessionStoreMore.

Import AuthContext.

Variable transport : Transport.

Lemma nullish_cases (v : JsVal) :
  v = JUndefined \/ v = JNull \/ (v <> JUndefined /\ v <> JNull).
Proof. destruct v; auto; right; right; split; discriminate. Qed.

Lemma destructure_non_nullish (body : JsVal) :
  body <> JUndefined -> body <> JNull ->
  destructure_token_user body = Normal (field body "token", field body "user").
Proof. destruct body; intros; try reflexivity; congruence. Qed.

Lemma signup_resolved
    (name mobile email password : string) (w : World) (resp body token u : JsVal) :
  transport (signup_request w name mobile email password) = Normal resp ->
  get resp "data" = Normal body ->
  destructure_token_user body = Normal (token, u) ->
  signup transport name mobile email password w
  = (Normal {| success := true; error := None |},
     {| localStorage := <[ "divine_token" := to_string token ]> (localStorage w);
        user := u; isLoading := isLoading w; modal := modal w; timers := timers w;
        trace := (trace w ++ [EvRequest (signup_request w name mobile email password);
                              EvSetUser u])%list |}).
Proof.
  unfold signup_request, registration. intros Hresp Hbody Hdestr.
  unfold signup, Api.registerUser, Api.api_post.
  unfold try_catch, mbind at 1, M_bind at 1.
  rewrite api_request_run, Hresp.
  destruct_world w. mstep. rewrite Hbody. mstep. rewrite Hdestr. mstep.
  rewrite <- app_assoc. reflexivity.
Qed.

Lemma signup_rejected
    (name mobile email password : string) (w : World) (e : JsVal) :
  transport (signup_request w name mobile email password) = Throw e ->
  signup transport name mobile email password w
  = (match Api.getApiErrorMessage e with
     | Normal message => Normal {| success := false; error := Some message |}
     | Throw e' => Throw e'
     end,
     snd (emit (EvRequest (signup_request w name mobile email password)) w)).
Proof.
  unfold signup_request, registration. intros Hresp.
  unfold signup, Api.registerUser, Api.api_post.
  unfold try_catch, mbind at 1, M_bind at 1.
  rewrite api_request_run, Hresp.
  destruct_world w. mstep.
  destruct (Api.getApiErrorMessage e); reflexivity.
Qed.

(** X1. [signup] keeps the contract of [login] on the register endpoint.
    A resolved response whose body carries a token and a user: the token is
    stored under the token key, the user becomes the stored user, the
    result is [{ success: true }].  A rejection with an error object: the
    result is [{ success: false, error }] where [error] is the normalised
    message of the rejection ([spec_error_message], what
    [getApiErrorMessage] returns), never empty, and storage and user are as
    before. *)
Theorem X1_signup_contract (name mobile email password : string) (w : World) :
  (forall (resp body u : JsVal) (tok : string),
     transport (signup_request w name mobile email password) = Normal resp ->
     get resp "data" = Normal body ->
     is_object body = true ->
     field body "token" = JStr tok ->
     field body "user" = u ->
     exists w',
       signup transport name mobile email password w
         = (Normal {| success := true; error := None |}, w') /\
       localStorage w' = <[ "divine_token" := tok ]> (localStorage w) /\
       localStorage w' !! "divine_token" = Some tok /\
       user w' = u /\
       isAuthenticated w' = to_boolean u /\
       isLoading w' = isLoading w) /\
  (forall e : JsVal,
     transport (signup_request w name mobile email password) = Throw e ->
     is_object e = true ->
     exists (message : JsVal) (w' : World),
       signup transport name mobile email password w
         = (Normal {| success := false; error := Some message |}, w') /\
       message = spec_error_message e /\
       Api.getApiErrorMessage e = Normal message /\
       to_boolean message = true /\
       localStorage w' = localStorage w /\
       user w' = user w /\
       isLoading w' = isLoading w).
Proof.
  split.
  - intros resp body u tok Hresp Hbody Hobj Htok Hu.
    eexists. split.
    { apply (signup_resolved name mobile email password w resp body (JStr tok) u
               Hresp Hbody).
      rewrite destructure_object by assumption. rewrite Htok, Hu. reflexivity. }
    mstep. cbn [to_string].
    split; [reflexivity|]. split; [apply lookup_insert_eq|]. repeat split.
  - intros e Hresp Hobj.
    assert (Hmsg : Api.getApiErrorMessage e = Normal (spec_error_message e)).
    { apply getApiErrorMessage_returns; destruct e; discriminate. }
    exists (spec_error_message e),
           (snd (emit (EvRequest (signup_request w name mobile email password)) w)).
    split; [rewrite (signup_rejected name mobile email password w e Hresp), Hmsg;
            reflexivity|].
    split; [reflexivity|].
    split; [exact Hmsg|]. split; [apply spec_error_message_truthy|].
    destruct_world w. mstep. repeat split.
Qed.

(** The handler of [login]'s [catch] block, on a [TypeError] raised inside
    the [try] block. *)
Lemma getApiErrorMessage_type_error (msg : string) :
  msg <> "" ->
  Api.getApiErrorMessage (type_error msg) = Normal (JStr msg).
Proof.
  intros Hne. rewrite getApiErrorMessage_returns by discriminate.
  unfold spec_error_message, response_received, no_response_received.
  assert (Hax : isAxiosError (type_error msg) = false) by (vm_compute; reflexivity).
  rewrite Hax. cbn [andb].
  assert (Hfield : field (type_error msg) "message" = JStr msg).
  { unfold type_error, field. rewrite lookup_insert_ne by discriminate.
    rewrite lookup_singleton_eq. reflexivity. }
  rewrite Hfield. unfold present.
  apply to_boolean_JStr in Hne. rewrite Hne. reflexivity.
Qed.

(** [login] when the endpoint resolved but the [try] block throws [e']
    while reading the response. *)
Lemma login_try_throws (email password : string) (w : World) (resp e' : JsVal) :
  transport (login_request w email password) = Normal resp ->
  (body ← get resp "data"; destructure_token_user body) = Throw e' ->
  login transport email password w
  = (match Api.getApiErrorMessage e' with
     | Normal message => Normal {| success := false; error := Some message |}
     | Throw e'' => Throw e''
     end,
     snd (emit (EvRequest (login_request w email password)) w)).
Proof.
  unfold login_request, credentials. intros Hresp Hthrows.
  unfold login, Api.loginUser, Api.api_post.
  unfold try_catch, mbind at 1, M_bind at 1.
  rewrite api_request_run, Hresp.
  destruct_world w. revert Hthrows. mstep.
  destruct (get resp "data") as [body|e1]; mstep.
  - destruct (destructure_token_user body) as [[token u]|e2]; [discriminate|].
    intros [= ->]. mstep. destruct (Api.getApiErrorMessage e'); reflexivity.
  - intros [= ->]. destruct (Api.getApiErrorMessage e'); reflexivity.
Qed.

(** X2. The promise of [login] is rejected in exactly one situation: the
    endpoint itself was rejected with [null] or [undefined].  Whatever the
    endpoint resolves with, and whatever other value it is rejected with,
    [login] returns a result object. *)
Theorem X2_login_rejects_only_on_nullish_rejection
    (email password : string) (w : World) :
  (exists e', fst (login transport email password w) = Throw e') <->
  (transport (login_request w email password) = Throw JNull \/
   transport (login_request w email password) = Throw JUndefined).
Proof.
  destruct (transport (login_request w email password)) as [resp|e] eqn:Hresp.
  - split; [|intros [H|H]; discriminate H].
    intros [e' He']. exfalso. revert He'.
    destruct (get resp "data") as [body|e1] eqn:Hbody.
    + destruct (nullish_cases body) as [->|[->|[Hu Hn]]].
      * rewrite (login_try_throws email password w resp _ Hresp
                   ltac:(rewrite Hbody; reflexivity)).
        rewrite getApiErrorMessage_type_error by discriminate. discriminate.
      * rewrite (login_try_throws email password w resp _ Hresp
                   ltac:(rewrite Hbody; reflexivity)).
        rewrite getApiErrorMessage_type_error by discriminate. discriminate.
      * rewrite (login_resolved transport email password w resp body _ _ Hresp Hbody
                   (destructure_non_nullish body Hu Hn)).
        discriminate.
    + assert (He1 : exists msg, e1 = type_error msg /\ msg <> "").
      { destruct resp; try discriminate Hbody; injection Hbody as <-;
          eexists; (split; [reflexivity|discriminate]). }
      destruct He1 as (msg & -> & Hmsg).
      rewrite (login_try_throws email password w resp _ Hresp
                 ltac:(rewrite Hbody; reflexivity)).
      rewrite getApiErrorMessage_type_error by assumption. discriminate.
  - rewrite (login_rejected transport email password w e Hresp). cbn [fst].
    destruct (nullish_cases e) as [->|[->|[Hu Hn]]].
    + split; [auto|]. intros _. eexists. vm_compute. reflexivity.
    + split; [auto|]. intros _. eexists. vm_compute. reflexivity.
    + rewrite getApiErrorMessage_returns by assumption.
      split; [intros [e' He']; discriminate He'|].
      intros [H|H]; injection H as ->; congruence.
Qed.

(** X3. [login] counts every resolved response with a body other than
    [null] and [undefined] as a success: what it stores as the token is the
    string form of the body's [token] field, so a body without one leaves
    the text "undefined" under the token key, and the stored user is the
    body's [user] field, [undefined] when there is none.  A resolved
    response with no body is a failure with a non-empty message, and nothing
    is written. *)
Theorem X3_login_success_is_any_body
    (email password : string) (w : World) (resp body : JsVal) :
  transport (login_request w email password) = Normal resp ->
  get resp "data" = Normal body ->
  (body <> JUndefined -> body <> JNull ->
     exists w',
       login transport email password w
         = (Normal {| success := true; error := None |}, w') /\
       localStorage w' !! "divine_token" = Some (to_string (field body "token")) /\
       user w' = field body "user" /\
       (field body "token" = JUndefined ->
          localStorage w' !! "divine_token" = Some "undefined") /\
       (field body "user" = JUndefined -> isAuthenticated w' = false)) /\
  (body = JUndefined \/ body = JNull ->
     exists (msg : string) (w' : World),
       login transport email password w
         = (Normal {| success := false; error := Some (JStr msg) |}, w') /\
       msg <> "" /\
       localStorage w' = localStorage w /\
       user w' = user w).
Proof.
  intros Hresp Hbody. split.
  - intros Hu Hn. eexists. split.
    { apply (login_resolved transport email password w resp body _ _ Hresp Hbody
               (destructure_non_nullish body Hu Hn)). }
    mstep. split; [apply lookup_insert_eq|]. split; [reflexivity|]. split.
    + intros ->. apply lookup_insert_eq.
    + intros ->. reflexivity.
  - intros Hnull.
    assert (Hthrows : exists msg,
               msg <> "" /\
               (body' ← get resp "data"; destructure_token_user body')
               = Throw (type_error msg)).
    { rewrite Hbody. destruct Hnull as [->| ->]; eexists;
        (split; [|reflexivity]); discriminate. }
    destruct Hthrows as (msg & Hmsg & Hthrows).
    exists msg, (snd (emit (EvRequest (login_request w email password)) w)).
    rewrite (login_try_throws email password w resp _ Hresp Hthrows).
    rewrite getApiErrorMessage_type_error by assumption.
    split; [reflexivity|]. split; [exact Hmsg|].
    destruct_world w. mstep. split; reflexivity.
Qed.

Lemma loadUser_anonymous (transport' : Transport) (storage : gmap string string) :
  storage !! "divine_token" = None ->
  loadUser transport' (initial_world storage)
  = (Normal tt,
     {| localStorage := storage; user := JNull; isLoading := false;
        modal := initial_modal; timers := []; trace := [EvSetIsLoading false] |}).
Proof.
  intros Hnone. apply loadUser_without_token. rewrite Hnone. reflexivity.
Qed.

Lemma loadUser_sends_token
    (transport' : Transport) (storage : gmap string string) (tok : string) :
  storage !! "divine_token" = Some tok -> tok <> "" ->
  requests (trace (snd (loadUser transport' (initial_world storage))))
  = [set_header "Authorization" ("Bearer " +:+ tok) (get_config "/auth/me")].
Proof.
  intros Htok Hne.
  pose proof (token_truthy storage tok Htok Hne) as Htruthy.
  rewrite <- (sent_by_api_token (get_config "/auth/me") (initial_world storage) tok)
    by assumption.
  destruct (fetch_outcome
              (transport' (sent_by_api (initial_world storage) (get_config "/auth/me"))))
    as [Hfails|(resp & body & fetched & Hresp & Hbody & Hfetched)].
  - rewrite (loadUser_fetch_failed transport' storage Htruthy Hfails). reflexivity.
  - rewrite (loadUser_fetched transport' storage resp body fetched Htruthy
               Hresp Hbody Hfetched).
    reflexivity.
Qed.

(** X4. The token that a successful [login] stores is the token the client
    presents from then on: every request made in the resulting state
    carries it as bearer authorization, and after the page is loaded again
    the startup fetch is the one request sent, to [/auth/me], with that
    token. *)
Theorem X4_login_token_round_trip
    (email password : string) (w : World) (resp body : JsVal) (tok : string) :
  transport (login_request w email password) = Normal resp ->
  get resp "data" = Normal body ->
  is_object body = true ->
  field body "token" = JStr tok ->
  tok <> "" ->
  let w' := snd (login transport email password w) in
  (forall config : Request,
     headers (sent_by_api w' config) !! "Authorization" = Some ("Bearer " +:+ tok)) /\
  (forall transport' : Transport,
     requests (trace (snd (loadUser transport' (reload w'))))
     = [set_header "Authorization" ("Bearer " +:+ tok) (get_config "/auth/me")]).
Proof.
  intros Hresp Hbody Hobj Htok Hne w'.
  assert (Hstored : localStorage w' !! "divine_token" = Some tok).
  { subst w'.
    rewrite (login_resolved transport email password w resp body (JStr tok)
               (field body "user") Hresp Hbody).
    - mstep. apply lookup_insert_eq.
    - rewrite destructure_object by assumption. rewrite Htok. reflexivity. }
  split.
  - intros config. rewrite (sent_by_api_token config w' tok Hstored Hne).
    unfold set_header. cbn [headers]. apply lookup_insert_eq.
  - intros transport'. unfold reload. apply loadUser_sends_token; assumption.
Qed.

(** X5. After [logout] the client presents no token: a request made in the
    resulting state leaves exactly as the endpoint built it, and after the
    page is loaded again startup sends nothing and ends Anonymous. *)
Theorem X5_logout_forgets_token (w : World) :
  let w' := snd (logout w) in
  (forall config : Request, sent_by_api w' config = config) /\
  (forall transport' : Transport,
     exists w'',
       loadUser transport' (reload w') = (Normal tt, w'') /\
       requests (trace w'') = [] /\
       user w'' = JNull /\ isAuthenticated w'' = false /\ isLoading w'' = false).
Proof.
  intros w'.
  assert (Hnone : localStorage w' !! "divine_token" = None).
  { subst w'. destruct_world w. unfold logout. mstep. apply lookup_delete_eq. }
  split.
  - intros config. apply sent_by_api_no_token. exact Hnone.
  - intros transport'. eexists. split.
    { unfold reload. apply loadUser_anonymous. exact Hnone. }
    mstep. repeat split.
Qed.

(** X6. A token that fails at startup is not tried again.  When a token is
    stored and the startup fetch is rejected, or resolves with a response
    that has no body to read the user from, the token is gone: after the
    page is loaded again startup sends nothing and ends Anonymous. *)
Theorem X6_failed_token_is_not_retried (storage : gmap string string) :
  to_boolean (from_option JStr JNull (storage !! "divine_token")) = true ->
  fetch_fails (transport (sent_by_api (initial_world storage) (get_config "/auth/me"))) ->
  let w1 := snd (loadUser transport (initial_world storage)) in
  localStorage w1 !! "divine_token" = None /\
  (forall transport' : Transport,
     exists w2,
       loadUser transport' (reload w1) = (Normal tt, w2) /\
       requests (trace w2) = [] /\
       user w2 = JNull /\ isLoading w2 = false).
Proof.
  intros Htruthy Hfails w1.
  assert (Hnone : localStorage w1 !! "divine_token" = None).
  { subst w1. rewrite (loadUser_fetch_failed transport storage Htruthy Hfails).
    mstep. apply lookup_delete_eq. }
  split; [exact Hnone|].
  intros transport'. eexists. split.
  { unfold reload. apply loadUser_anonymous. exact Hnone. }
  mstep. repeat split.
Qed.

End SessionStoreMore.

(** X3 for a backend that answers the login with the plain text "OK". *)
Lemma X3_witness :
  let transport : Transport := fun _ => Normal (JObj {[ "data" := JStr "OK" ]}) in
  exists w',
    AuthContext.login transport "asha@example.in" "secret1" (initial_world ∅)
      = (Normal {| AuthContext.success := true; AuthContext.error := None |}, w') /\
    localStorage w' !! "divine_token" = Some "undefined" /\
    isAuthenticated w' = false.
Proof.
  intros transport.
  destruct (proj1 (X3_login_success_is_any_body transport "asha@example.in" "secret1"
                     (initial_world ∅) (JObj {[ "data" := JStr "OK" ]}) (JStr "OK")
                     eq_refl ltac:(vm_compute; reflexivity))
              ltac:(discriminate) ltac:(discriminate))
    as (w' & Hrun & _ & _ & Htok & Hauth).
  exists w'. split; [exact Hrun|]. split; [apply Htok|apply Hauth]; reflexivity.
Defined.

(** X1 at a concrete registration. *)
Lemma X1_witness :
  let w := initial_world ∅ in
  (exists w',
     AuthContext.signup backend_accepts_asha "Asha Rao" "9876543210"
       "asha@example.in" "secret1" w
       = (Normal {| AuthContext.success := true; AuthContext.error := None |}, w') /\
     localStorage w' !! "divine_token" = Some "tok-1" /\ user w' = asha) /\
  (exists message w',
     AuthContext.signup backend_accepts_asha "Asha Rao" "9876543210"
       "asha@example.in" "letmein" w
       = (Normal {| AuthContext.success := false; AuthContext.error := Some message |}, w') /\
     message = JStr "Invalid credentials" /\
     localStorage w' = localStorage w /\ user w' = user w).
Proof.
  intros w. split.
  - destruct (proj1 (X1_signup_contract backend_accepts_asha "Asha Rao" "9876543210"
                       "asha@example.in" "secret1" w)
                (JObj {[ "status" := JNum 200;
                         "data" := JObj {[ "token" := JStr "tok-1"; "user" := asha ]} ]})
                (JObj {[ "token" := JStr "tok-1"; "user" := asha ]}) asha "tok-1")
      as (w' & Hrun & _ & Htok & Huser & _).
    + vm_compute. reflexivity.
    + vm_compute. reflexivity.
    + reflexivity.
    + vm_compute. reflexivity.
    + vm_compute. reflexivity.
    + exists w'. split; [exact Hrun|]. split; [exact Htok|exact Huser].
  - destruct (proj2 (X1_signup_contract backend_accepts_asha "Asha Rao" "9876543210"
                       "asha@example.in" "letmein" w)
                invalid_credentials)
      as (message & w' & Hrun & Hspec & _ & _ & Hstorage & Huser & _).
    + vm_compute. reflexivity.
    + reflexivity.
    + exists message, w'. split; [exact Hrun|].
      split; [rewrite Hspec; vm_compute; reflexivity|].
      split; [exact Hstorage|exact Huser].
Defined.

(** X4 after Asha's login on a fresh session. *)
Lemma X4_witness :
  let w' := snd (AuthContext.login backend_accepts_asha "asha@example.in" "secret1"
                   (initial_world ∅)) in
  headers (sent_by_api w' (get_config "/temples")) !! "Authorization"
    = Some "Bearer tok-1" /\
  requests (trace (snd (AuthContext.loadUser backend_knows_abc (reload w'))))
    = [set_header "Authorization" "Bearer tok-1" (get_config "/auth/me")].
Proof.
  intros w'.
  destruct (X4_login_token_round_trip backend_accepts_asha "asha@example.in" "secret1"
              (initial_world ∅)
              (JObj {[ "status" := JNum 200;
                       "data" := JObj {[ "token" := JStr "tok-1"; "user" := asha ]} ]})
              (JObj {[ "token" := JStr "tok-1"; "user" := asha ]}) "tok-1")
    as [Hany Hreload].
  - vm_compute. reflexivity.
  - vm_compute. reflexivity.
  - reflexivity.
  - vm_compute. reflexivity.
  - discriminate.
  - split; [apply Hany|apply Hreload].
Defined.

(** X6 with the stale token "old": the backend of [backend_knows_abc]
    rejects it. *)
Lemma X6_witness :
  let w1 := snd (AuthContext.loadUser backend_knows_abc
                   (initial_world {[ "divine_token" := "old" ]})) in
  localStorage w1 !! "divine_token" = None /\
  exists w2,
    AuthContext.loadUser backend_knows_abc (reload w1) = (Normal tt, w2) /\
    requests (trace w2) = [] /\ user w2 = JNull /\ isLoading w2 = false.
Proof.
  intros w1.
  destruct (X6_failed_token_is_not_retried backend_knows_abc {[ "divine_token" := "old" ]})
    as [Hnone Hreload].
  - vm_compute. reflexivity.
  - vm_compute. exact I.
  - split; [exact Hnone|apply Hreload].
Defined.

(* ===================================================================== *)
(** ** Further properties of the two HTTP clients *)
(* ===================================================================== *)

Section HttpClientMore.

Variable transport : Transport.

Lemma sent_by_api_cases (config : Request) (w : World) :
  sent_by_api w config
  = match localStorage w !! "divine_token" with
    | Some tok =>
        if String.eqb tok "" then config
        else set_header "Authorization" ("Bearer " +:+ tok) config
    | None => config
    end.
Proof.
  destruct (localStorage w !! "divine_token") as [tok|] eqn:Htok.
  - destruct (String.eqb_spec tok "") as [->|Hne].
    + destruct_world w. revert Htok. unfold sent_by_api, Api.request_interceptor.
      mstep. intros ->. reflexivity.
    + apply sent_by_api_token; assumption.
  - apply sent_by_api_no_token. exact Htok.
Qed.

(** X7. The request interceptor of [src/services/api.ts] never throws,
    changes nothing in the world, and changes nothing in the request but
    the [Authorization] header: method, URL, body and every other header
    stay.  With a non-empty token stored the header is set to "Bearer
    <token>", replacing whatever the caller had put there; with no token,
    or an empty one, the headers are exactly the caller's. *)
Theorem X7_interceptor_touches_only_authorization (config : Request) (w : World) :
  exists config',
    Api.request_interceptor config w = (Normal config', w) /\
    method config' = method config /\
    url config' = url config /\
    data config' = data config /\
    (forall k, k <> "Authorization" -> headers config' !! k = headers config !! k) /\
    headers config'
    = match localStorage w !! "divine_token" with
      | Some tok =>
          if String.eqb tok "" then headers config
          else <[ "Authorization" := "Bearer " +:+ tok ]> (headers config)
      | None => headers config
      end.
Proof.
  exists (sent_by_api w config). split; [apply api_interceptor_run|].
  rewrite sent_by_api_cases.
  destruct (localStorage w !! "divine_token") as [tok|]; [|repeat split].
  destruct (String.eqb tok ""); [repeat split|].
  unfold set_header. cbn [method url data headers].
  split; [reflexivity|]. split; [reflexivity|]. split; [reflexivity|].
  split; [|reflexivity].
  intros k Hk. apply lookup_insert_ne. congruence.
Qed.

Lemma authorization_sent (config : Request) (w : World) :
  headers config !! "Authorization" = None ->
  headers (sent_by_api w config) !! "Authorization"
  = bearer_authorization (localStorage w).
Proof.
  intros Hnone. rewrite sent_by_api_cases. unfold bearer_authorization.
  destruct (localStorage w !! "divine_token") as [tok|]; [|exact Hnone].
  destruct (String.eqb tok ""); [exact Hnone|].
  unfold set_header. cbn [headers]. apply lookup_insert_eq.
Qed.

Lemma endpoint_call_config (c : M JsVal) :
  endpoint_call transport c ->
  exists config, c = Api.request transport config /\ headers config = ∅.
Proof.
  intros Hc. destruct Hc; eexists; (split; [reflexivity|reflexivity]).
Qed.

(** X8. Every endpoint function of [src/services/api.ts] does the same
    three things and no more: it hands exactly one request to the
    transport, it returns (or throws) what the transport answers to that
    request, and it leaves storage and the stored user alone.  None of them
    sets an [Authorization] header of its own, so the request leaves with
    the bearer authorization of the stored token when there is a non-empty
    one and with no [Authorization] header otherwise. *)
Theorem X8_every_endpoint_sends_one_authorized_request (c : M JsVal) (w : World) :
  endpoint_call transport c ->
  exists sent,
    c w = (transport sent, snd (emit (EvRequest sent) w)) /\
    requests (trace (snd (c w))) = (requests (trace w) ++ [sent])%list /\
    headers sent !! "Authorization" = bearer_authorization (localStorage w) /\
    localStorage (snd (c w)) = localStorage w /\
    user (snd (c w)) = user w.
Proof.
  intros Hc. destruct (endpoint_call_config c Hc) as (config & -> & Hempty).
  exists (sent_by_api w config). rewrite api_request_run.
  split; [reflexivity|].
  split; [|split; [apply authorization_sent; rewrite Hempty; apply lookup_empty|]].
  - destruct_world w. mstep. rewrite requests_app. reflexivity.
  - destruct_world w. mstep. split; reflexivity.
Qed.

Lemma request_url (config : Request) (w : World) :
  url (sent_by_api w config) = url config.
Proof.
  rewrite sent_by_api_cases.
  destruct (localStorage w !! "divine_token") as [tok|]; [|reflexivity].
  destruct (String.eqb tok ""); reflexivity.
Qed.

Lemma request_method (config : Request) (w : World) :
  method (sent_by_api w config) = method config.
Proof.
  rewrite sent_by_api_cases.
  destruct (localStorage w !! "divine_token") as [tok|]; [|reflexivity].
  destruct (String.eqb tok ""); reflexivity.
Qed.

Lemma request_data (config : Request) (w : World) :
  data (sent_by_api w config) = data config.
Proof.
  rewrite sent_by_api_cases.
  destruct (localStorage w !! "divine_token") as [tok|]; [|reflexivity].
  destruct (String.eqb tok ""); reflexivity.
Qed.

Lemma temple_path_inj (id1 id2 : Z) :
  "/temples/" +:+ to_string (JNum id1) = "/temples/" +:+ to_string (JNum id2) ->
  id1 = id2.
Proof.
  cbn [to_string]. intros H. cbv [String.append] in H.
  injection H as H. apply (inj pretty). exact H.
Qed.

(** X9. The three temple endpoints that take an id address one resource
    per id, for ids that are safe integers.  In any state, [getTempleById],
    [updateTemple] and [deleteTemple] called with the same id send their
    request to the same URL, "/temples/" followed by the decimal numeral of
    the id, with the methods get, put and delete; and two different ids
    never give the same URL. *)
Theorem X9_temple_paths (id1 id2 : Z) (body : JsVal) (w : World) :
  safe_integer id1 ->
  safe_integer id2 ->
  exists got updated deleted other,
    requests (trace (snd (Api.getTempleById transport id1 w)))
      = (requests (trace w) ++ [got])%list /\
    requests (trace (snd (Api.updateTemple transport id1 body w)))
      = (requests (trace w) ++ [updated])%list /\
    requests (trace (snd (Api.deleteTemple transport id1 w)))
      = (requests (trace w) ++ [deleted])%list /\
    requests (trace (snd (Api.getTempleById transport id2 w)))
      = (requests (trace w) ++ [other])%list /\
    method got = "get" /\ method updated = "put" /\ method deleted = "delete" /\
    url updated = url got /\ url deleted = url got /\
    data updated = body /\
    url got = "/temples/" +:+ pretty id1 /\
    (url other = url got -> id1 = id2).
Proof.
  intros _ _.
  exists (sent_by_api w (get_config ("/temples/" +:+ to_string (JNum id1)))),
         (sent_by_api w (put_config ("/temples/" +:+ to_string (JNum id1)) body)),
         (sent_by_api w (delete_config ("/temples/" +:+ to_string (JNum id1)))),
         (sent_by_api w (get_config ("/temples/" +:+ to_string (JNum id2)))).
  unfold Api.getTempleById, Api.updateTemple, Api.deleteTemple, Api.api_get,
    Api.api_put, Api.api_delete.
  rewrite !api_request_run, !request_url, !request_method, !request_data.
  assert (Hreq : forall sent,
             requests (trace (snd (emit (EvRequest sent) w)))
             = (requests (trace w) ++ [sent])%list).
  { intros sent. destruct_world w. mstep. rewrite requests_app. reflexivity. }
  cbn [snd]. rewrite !Hreq.
  repeat (split; [reflexivity|]).
  cbn [url get_config]. intros H. symmetry. apply temple_path_inj. exact H.
Qed.

Lemma frontent_resolution_run (response : JsVal) :
  (status ← get response "status";
   config ← get response "config";
   url ← get config "url";
   body ← get response "data";
   Normal response)
  = frontent_resolution response.
Proof.
  destruct (nullish_cases response) as [->|[->|[Hu Hn]]]; try reflexivity.
  rewrite !(get_field response) by assumption. cbn [mbind Completion_bind].
  assert (Hres : frontent_resolution response
                 = match field response "config" with
                   | JUndefined =>
                       Throw (type_error
                                "Cannot read properties of undefined (reading 'url')")
                   | JNull =>
                       Throw (type_error
                                "Cannot read properties of null (reading 'url')")
                   | _ => Normal response
                   end).
  { destruct response; try reflexivity; congruence. }
  rewrite Hres. destruct (field response "config"); reflexivity.
Qed.

(** X10. The debug interceptors of [src/frontent/services/api.ts] leave the
    outcome of a request as the transport gave it, except where their own
    logging throws.  A resolved response is returned unchanged when it and
    its [config] are neither [null] nor [undefined]; otherwise reading
    [response.status] or [response.config.url] throws and the caller sees
    that [TypeError].  A rejection with any value other than [null] and
    [undefined] is thrown on unchanged; a rejection with [null] or
    [undefined] makes the logging code throw, and the caller sees that
    [TypeError] instead.  In every case storage and the stored user are
    untouched. *)
Theorem X10_frontent_interceptors_pass_outcome_through (config : Request) (w : World) :
  fst (FrontentApi.request transport config w)
  = match transport config with
    | Normal response => frontent_resolution response
    | Throw e => Throw (frontent_rejection e)
    end /\
  (forall response : JsVal,
     transport config = Normal response ->
     is_object response = true ->
     is_object (field response "config") = true ->
     fst (FrontentApi.request transport config w) = Normal response) /\
  localStorage (snd (FrontentApi.request transport config w)) = localStorage w /\
  user (snd (FrontentApi.request transport config w)) = user w.
Proof.
  assert (Hmain :
    fst (FrontentApi.request transport config w)
    = match transport config with
      | Normal response => frontent_resolution response
      | Throw e => Throw (frontent_rejection e)
      end /\
    localStorage (snd (FrontentApi.request transport config w)) = localStorage w /\
    user (snd (FrontentApi.request transport config w)) = user w).
  { unfold FrontentApi.request, FrontentApi.request_interceptor,
      FrontentApi.response_interceptor, FrontentApi.response_error_interceptor.
    destruct_world w. mstep.
    destruct (transport config) as [response|e]; mstep.
    - rewrite <- frontent_resolution_run. cbn [mbind Completion_bind].
      destruct (get response "status") as [status|e1]; mstep; [|repeat split].
      destruct (get response "config") as [cfg|e2]; mstep; [|repeat split].
      destruct (get cfg "url") as [u|e3]; mstep; [|repeat split].
      destruct (get response "data") as [body|e4]; mstep; repeat split.
    - destruct (nullish_cases e) as [->|[->|[Hu Hn]]].
      + cbn [get]. mstep. repeat split.
      + cbn [get]. mstep. repeat split.
      + rewrite !(get_field e) by assumption. mstep. rewrite !get_opt_field. mstep.
        assert (Hsame : frontent_rejection e = e)
          by (destruct e; try reflexivity; congruence).
        rewrite Hsame.
        destruct (to_boolean (field (field e "response") "data")); repeat split. }
  destruct Hmain as (Hout & Hstorage & Huser).
  split; [exact Hout|]. split; [|split; assumption].
  intros response Hresp Hobj Hcfg. rewrite Hout, Hresp.
  destruct response; try discriminate Hobj. unfold frontent_resolution.
  destruct (field (JObj props) "config"); try discriminate Hcfg. reflexivity.
Qed.

(** X11. Resolving the base URL never throws, whatever [import.meta] is
    (also [undefined], or an object without [env]), and never gives an
    empty result.  A configured production URL wins in both clients; one
    that is missing or is the empty string counts as not configured, and
    then the first client derives "http://<hostname>:5000/api" from the
    current host while the second always uses the deployed backend. *)
Theorem X11_getBaseUrl (import_meta : JsVal) (hostname : string) :
  let configured := field (field import_meta "env") "VITE_API_URL" in
  exists first second,
    Api.getBaseUrl import_meta hostname = Normal first /\
    FrontentApi.getBaseUrl import_meta = Normal second /\
    to_boolean first = true /\ to_boolean second = true /\
    (if to_boolean configured
     then first = configured /\ second = configured
     else first = JStr ("http://" +:+ hostname +:+ ":5000/api") /\
          second = JStr "https://divine-darshan-backend.vercel.app/api").
Proof.
  intros configured.
  unfold Api.getBaseUrl, FrontentApi.getBaseUrl.
  rewrite !get_opt_field. cbn [mbind Completion_bind].
  rewrite !get_opt_field. cbn [mbind Completion_bind].
  fold configured.
  destruct (to_boolean configured) eqn:Hconf.
  - exists configured, configured. repeat split; assumption.
  - do 2 eexists. split; [reflexivity|]. split; [reflexivity|].
    split; [|split; [reflexivity|split; reflexivity]].
    apply to_boolean_JStr. intros H. cbv [String.append] in H. discriminate H.
Qed.

End HttpClientMore.

(** X8 for the temple list, with Asha's token in storage. *)
Lemma X8_witness :
  exists sent,
    requests (trace (snd (Api.getTemples backend_knows_abc
                            (initial_world {[ "divine_token" := "tok-1" ]}))))
      = [sent] /\
    headers sent !! "Authorization" = Some "Bearer tok-1".
Proof.
  destruct (X8_every_endpoint_sends_one_authorized_request backend_knows_abc
              (Api.getTemples backend_knows_abc)
              (initial_world {[ "divine_token" := "tok-1" ]})
              (call_getTemples backend_knows_abc))
    as (sent & _ & Hreq & Hheaders & _).
  exists sent. split; [exact Hreq|]. rewrite Hheaders. vm_compute. reflexivity.
Defined.

(** X9 for the temples 7 and 8. *)
Lemma X9_witness :
  exists got other,
    requests (trace (snd (Api.getTempleById backend_knows_abc 7 (initial_world ∅))))
      = [got] /\
    requests (trace (snd (Api.getTempleById backend_knows_abc 8 (initial_world ∅))))
      = [other] /\
    url got = "/temples/7" /\
    (url other = url got -> 7 = 8)%Z.
Proof.
  destruct (X9_temple_paths backend_knows_abc 7 8 JNull (initial_world ∅))
    as (got & updated & deleted & other & Hgot & _ & _ & Hother & _ & _ & _ & _ & _ & _
        & Hurl & Hinj).
  - unfold safe_integer. lia.
  - unfold safe_integer. lia.
  - exists got, other. split; [exact Hgot|]. split; [exact Hother|].
    split; [exact Hurl|exact Hinj].
Defined.

(* ===================================================================== *)
(** ** Further properties of the modal's validation *)
(* ===================================================================== *)

Section ValidationMore.

Import Regex LoginModal.

Lemma matches_void (s : string) : matches Void s = false.
Proof. induction s as [|c s IH]; [reflexivity|exact IH]. Qed.

Lemma matches_class_seq (p : ascii -> bool) (r : Regex) (c : ascii) (s : string) :
  matches (Seq (Class p) r) (String c s) = p c && matches r s.
Proof.
  cbn [matches deriv nullable andb]. destruct (p c); cbn [andb].
  - destruct r; reflexivity.
  - cbn [seq]. apply matches_void.
Qed.

Lemma matches_times (n : nat) (p : ascii -> bool) (s : string) :
  matches (times n (Class p)) s
  = (String.length s =? n)%nat && string_forallb p s.
Proof.
  revert s. induction n as [|n IH]; intros [|c s]; cbn [times].
  - reflexivity.
  - cbn [matches deriv]. apply matches_void.
  - reflexivity.
  - rewrite matches_class_seq, IH. cbn [String.length Nat.eqb string_forallb].
    destruct (p c), (String.length s =? n)%nat; reflexivity.
Qed.

(** X12. The mobile-number pattern of [validate] accepts exactly the
    strings of ten characters that are all digits and start with 6, 7, 8
    or 9: nothing shorter, nothing longer, no sign, blank or separator. *)
Theorem X12_mobile_pattern_is_ten_digits (s : string) :
  test mobile_pattern s = is_mobile s.
Proof.
  unfold test, mobile_pattern, is_mobile. destruct s as [|c rest]; [reflexivity|].
  rewrite matches_class_seq, matches_times. apply andb_assoc.
Qed.

Lemma string_forallb_app (P : ascii -> bool) (s1 s2 : string) :
  string_forallb P (s1 +:+ s2) = string_forallb P s1 && string_forallb P s2.
Proof.
  induction s1 as [|c s1 IH]; [reflexivity|].
  rewrite append_cons. cbn [string_forallb]. rewrite IH. apply andb_assoc.
Qed.

Lemma Lang_chars (P : ascii -> bool) (r : Regex) (s : string) :
  Lang r s -> classes_within P r -> string_forallb P s = true.
Proof.
  intros HL. induction HL; cbn [classes_within]; intros Hin.
  - reflexivity.
  - cbn [string_forallb]. rewrite (Hin c) by assumption. reflexivity.
  - destruct Hin as [H1 H2]. rewrite string_forallb_app, IHHL1, IHHL2 by assumption.
    reflexivity.
  - apply IHHL. apply Hin.
  - apply IHHL. apply Hin.
  - reflexivity.
  - rewrite string_forallb_app, IHHL1, IHHL2 by assumption. reflexivity.
Qed.

Lemma literal_eq (a c : ascii) : literal a c = true -> c = a.
Proof.
  unfold literal, code. intros H. apply Nat.eqb_eq in H.
  rewrite <- (ascii_nat_embedding c), <- (ascii_nat_embedding a), H. reflexivity.
Qed.

Lemma Lang_plus_nonempty (p : ascii -> bool) (r : Regex) (s : string) :
  Lang (Seq (plus (Class p)) r) s -> s <> "".
Proof.
  intros H. apply Lang_seq in H as (s1 & s2 & -> & H1 & _).
  apply Lang_seq in H1 as (s3 & s4 & -> & H3 & _).
  apply Lang_class in H3 as (c & -> & _).
  rewrite !append_cons. discriminate.
Qed.

Lemma word_is_part (c : ascii) : word c = true -> email_part_char c = true.
Proof. unfold email_part_char. intros ->. reflexivity. Qed.

Lemma dot_or_dash_is_part (c : ascii) : dot_or_dash c = true -> email_part_char c = true.
Proof. unfold email_part_char. intros ->. apply orb_true_r. Qed.

Lemma dot_is_part (c : ascii) : literal "."%char c = true -> email_part_char c = true.
Proof. intros H. apply literal_eq in H. subst c. reflexivity. Qed.

(** X13. What the e-mail pattern of [validate] accepts has the shape
    local@domain: both parts are non-empty and consist of letters, digits,
    underscore, dot and dash only.  So an accepted address has exactly one
    [@] and holds no blank and no other character. *)
Theorem X13_email_pattern_shape (s : string) :
  test email_pattern s = true ->
  exists local domain,
    s = local +:+ "@" +:+ domain /\
    local <> "" /\ domain <> "" /\
    string_forallb email_part_char local = true /\
    string_forallb email_part_char domain = true.
Proof.
  unfold test. intros H. apply matches_spec in H.
  unfold email_pattern in H. cbv zeta in H.
  apply Lang_seq in H as (local & rest & -> & Hlocal & Hrest).
  apply Lang_seq in Hrest as (at_sign & domain & -> & Hat & Hdomain).
  apply Lang_class in Hat as (c & -> & Hc). apply literal_eq in Hc. subst c.
  exists local, domain. split; [reflexivity|].
  split; [exact (Lang_plus_nonempty _ _ _ Hlocal)|].
  split.
  { apply Lang_seq in Hdomain as (d1 & d2 & -> & Hd1 & _).
    pose proof (Lang_plus_nonempty _ _ _ Hd1) as Hne.
    destruct d1; [congruence|]. rewrite append_cons. discriminate. }
  split.
  - apply (Lang_chars email_part_char _ _ Hlocal). cbn [classes_within plus opt].
    repeat split; auto using word_is_part, dot_or_dash_is_part.
  - apply (Lang_chars email_part_char _ _ Hdomain).
    cbn [classes_within plus opt times].
    repeat split; auto using word_is_part, dot_or_dash_is_part, dot_is_part.
Qed.

End ValidationMore.

(** X13 on an address that the pattern accepts. *)
Lemma X13_witness :
  exists local domain,
    "asha.rao@example.in" = local +:+ "@" +:+ domain /\
    local <> "" /\ domain <> "" /\
    string_forallb email_part_char local = true /\
    string_forallb email_part_char domain = true.
Proof.
  apply X13_email_pattern_shape. vm_compute. reflexivity.
Defined.

Section ValidateMore.

Import Regex LoginModal.

(** Case analysis on the conditions [validate] tests. *)
Ltac case_conditions :=
  repeat match goal with
         | |- context [Regex.test ?r ?s] =>
             let H := fresh "Htest" in destruct (Regex.test r s) eqn:H
         | |- context [(?a <? ?b)%nat] =>
             let H := fresh "Hlt" in
             destruct (Nat.ltb_spec a b) as [H|H]
         | |- context [to_boolean ?v] =>
             let H := fresh "Hbool" in destruct (to_boolean v) eqn:H
         end.

Ltac lookup_errors :=
  repeat first [ rewrite lookup_insert_eq
               | rewrite lookup_insert_ne by discriminate
               | rewrite lookup_empty ].

Lemma validation_errors_login (m : Modal) :
  view m = V_login ->
  validation_errors m
  = let errors : gmap string string :=
      if negb (to_boolean (JStr (trim (loginIdentifier m)))) then
        {[ "loginIdentifier" := "Please enter your email or mobile number." ]}
      else if negb (test email_pattern (loginIdentifier m))
              && negb (test mobile_pattern (loginIdentifier m)) then
        {[ "loginIdentifier" := identifier_error ]}
      else ∅ in
    if (String.length (password m) <? 6)%nat
    then <[ "password" := password_error ]> errors else errors.
Proof.
  destruct m. cbn [view loginIdentifier password]. intros ->.
  unfold validation_errors. cbn [view loginIdentifier password].
  destruct (decide (V_login = V_login)) as [_|Hne]; [|congruence].
  destruct (decide (V_login = V_signup)) as [Heq|_]; [discriminate Heq|].
  destruct (decide (V_login = V_forgotPassword)) as [Heq|_]; [discriminate Heq|].
  reflexivity.
Qed.

Lemma validation_errors_signup (m : Modal) :
  view m = V_signup ->
  validation_errors m
  = let errors : gmap string string := ∅ in
    let errors :=
      if (String.length (trim (name m)) <? 3)%nat
      then <[ "name" := "Full name must be at least 3 characters." ]> errors
      else errors in
    let errors :=
      if negb (test email_pattern (email m))
      then <[ "email" := "Please enter a valid email address." ]> errors
      else errors in
    let errors :=
      if negb (test mobile_pattern (mobile m))
      then <[ "mobile" := "Please enter a valid 10-digit Indian mobile number." ]> errors
      else errors in
    if (String.length (password m) <? 6)%nat
    then <[ "password" := password_error ]> errors else errors.
Proof.
  destruct m. cbn [view name email mobile password]. intros ->.
  unfold validation_errors. cbn [view name email mobile password].
  destruct (decide (V_signup = V_login)) as [Heq|_]; [discriminate Heq|].
  destruct (decide (V_signup = V_signup)) as [_|Hne]; [|congruence].
  destruct (decide (V_signup = V_forgotPassword)) as [Heq|_]; [discriminate Heq|].
  reflexivity.
Qed.

Lemma validation_errors_forgot (m : Modal) :
  view m = V_forgotPassword ->
  validation_errors m
  = if negb (test email_pattern (resetEmail m))
    then {[ "resetEmail" := "Please enter a valid email address." ]} else ∅.
Proof.
  destruct m. cbn [view resetEmail]. intros ->.
  unfold validation_errors. cbn [view resetEmail].
  destruct (decide (V_forgotPassword = V_login)) as [Heq|_]; [discriminate Heq|].
  destruct (decide (V_forgotPassword = V_signup)) as [Heq|_]; [discriminate Heq|].
  destruct (decide (V_forgotPassword = V_forgotPassword)) as [_|Hne]; [|congruence].
  reflexivity.
Qed.

Lemma validation_errors_resetSent (m : Modal) :
  view m = V_resetSent -> validation_errors m = ∅.
Proof.
  destruct m. cbn [view]. intros ->. unfold validation_errors. cbn [view].
  destruct (decide (V_resetSent = V_login)) as [Heq|_]; [discriminate Heq|].
  destruct (decide (V_resetSent = V_signup)) as [Heq|_]; [discriminate Heq|].
  destruct (decide (V_resetSent = V_forgotPassword)) as [Heq|_]; [discriminate Heq|].
  reflexivity.
Qed.

(** X14. [validate] reports only on the fields of the view it runs in:
    the keys of the error object are among the view's own fields, so a
    value left behind in another view's field never blocks a submission,
    and on the reset-sent view, which has no fields, it reports nothing. *)
Theorem X14_errors_belong_to_the_view (m : Modal) :
  dom (validation_errors m) ⊆ validated_fields (view m).
Proof.
  destruct (view m) eqn:Hview; cbn [validated_fields].
  - rewrite (validation_errors_login m Hview). cbv zeta.
    case_conditions; cbn [negb andb];
      apply (bool_decide_unpack _); vm_compute; exact I.
  - rewrite (validation_errors_signup m Hview). cbv zeta.
    case_conditions; cbn [negb];
      apply (bool_decide_unpack _); vm_compute; exact I.
  - rewrite (validation_errors_forgot m Hview).
    case_conditions; cbn [negb];
      apply (bool_decide_unpack _); vm_compute; exact I.
  - rewrite (validation_errors_resetSent m Hview). rewrite dom_empty_L. reflexivity.
Qed.

Lemma trim_nonempty (s : string) :
  to_boolean (JStr (trim s)) = true <-> trim s <> "".
Proof. apply to_boolean_JStr. Qed.

(** X15. [validate] is not fail-fast: each field gets its error, or not,
    by its own value alone, whatever the other fields hold.  On Signup the
    four keys follow the four rules independently; on Login the identifier
    key follows the identifier and the password key the password; on
    the forgot-password view the one key follows the reset address. *)
Theorem X15_each_field_is_judged_alone (m : Modal) :
  let errors := validation_errors m in
  match view m with
  | V_login =>
      (errors !! "loginIdentifier" = None <->
         trim (loginIdentifier m) <> "" /\
         (test email_pattern (loginIdentifier m) = true \/
          test mobile_pattern (loginIdentifier m) = true)) /\
      (errors !! "password" = None <-> 6 <= String.length (password m))
  | V_signup =>
      (errors !! "name" = None <-> 3 <= String.length (trim (name m))) /\
      (errors !! "email" = None <-> test email_pattern (email m) = true) /\
      (errors !! "mobile" = None <-> test mobile_pattern (mobile m) = true) /\
      (errors !! "password" = None <-> 6 <= String.length (password m))
  | V_forgotPassword =>
      errors !! "resetEmail" = None <-> test email_pattern (resetEmail m) = true
  | V_resetSent => errors = ∅
  end.
Proof.
  intros errors. subst errors. destruct (view m) eqn:Hview.
  - rewrite (validation_errors_login m Hview). cbv zeta.
    rewrite <- trim_nonempty.
    case_conditions; cbn [negb andb]; lookup_errors;
      intuition first [discriminate|lia].
  - rewrite (validation_errors_signup m Hview). cbv zeta.
    case_conditions; cbn [negb]; repeat split; lookup_errors; intros H;
      first [reflexivity|discriminate H|lia|assumption].
  - rewrite (validation_errors_forgot m Hview).
    case_conditions; cbn [negb]; lookup_errors; split; intros H;
      first [reflexivity|discriminate H].
  - apply validation_errors_resetSent. exact Hview.
Qed.

Lemma no_keys_iff_empty (errors : gmap string string) :
  (List.length (object_keys errors) =? 0)%nat = true <-> errors = ∅.
Proof.
  unfold object_keys. rewrite length_fmap, Nat.eqb_eq, length_zero_iff_nil.
  apply map_to_list_empty_iff.
Qed.

Ltac absurd_errors :=
  match goal with
  | H : <[ _ := _ ]> _ = ∅ |- _ => destruct (insert_non_empty _ _ _ H)
  | H : {[ _ := _ ]} = ∅ |- _ => destruct (map_non_empty_singleton _ _ H)
  end.

Lemma errors_empty_iff_fields_ok (m : Modal) :
  validation_errors m = ∅ <-> fields_ok m.
Proof.
  unfold fields_ok, login_fields_ok, signup_fields_ok.
  destruct (view m) eqn:Hview.
  - rewrite (validation_errors_login m Hview). cbv zeta. rewrite <- trim_nonempty.
    case_conditions; cbn [negb andb]; split; intros H; try absurd_errors;
      intuition first [discriminate|lia].
  - rewrite (validation_errors_signup m Hview). cbv zeta.
    case_conditions; cbn [negb]; split; intros H; try absurd_errors;
      intuition first [discriminate|lia].
  - rewrite (validation_errors_forgot m Hview).
    case_conditions; cbn [negb]; split; intros H; try absurd_errors;
      first [reflexivity|discriminate H].
  - rewrite (validation_errors_resetSent m Hview). split; auto.
Qed.

(** X16. [validate] lets a submission through exactly when the fields of
    the current view are in order: on Login a non-blank identifier that is
    an e-mail address or a mobile number and a password of six characters
    or more; on Signup a name of three characters or more once trimmed, an
    e-mail address, a mobile number and such a password; on the
    forgot-password view an e-mail address.  It never throws, and what it
    changes in the world is the validation-error map and nothing else. *)
Theorem X16_validate_passes_iff_fields_ok (m : Modal) (w : World) :
  exists ok : bool,
    validate m w = (Normal ok, snd (setValidationErrors (validation_errors m) w)) /\
    (ok = true <-> fields_ok m) /\
    validationErrors (modal (snd (validate m w))) = validation_errors m /\
    formError (modal (snd (validate m w))) = formError (modal w) /\
    field_values (modal (snd (validate m w))) = field_values (modal w) /\
    view (modal (snd (validate m w))) = view (modal w) /\
    trace (snd (validate m w)) = trace w /\
    localStorage (snd (validate m w)) = localStorage w /\
    user (snd (validate m w)) = user w.
Proof.
  exists (List.length (object_keys (validation_errors m)) =? 0)%nat.
  split; [reflexivity|]. split.
  { rewrite no_keys_iff_empty. apply errors_empty_iff_fields_ok. }
  destruct_world w. unfold validate. mstep. repeat split.
Qed.

Lemma in_range_le (lo hi : nat) (c : ascii) :
  in_range lo hi c = true <-> lo <= code c <= hi.
Proof.
  unfold in_range. rewrite andb_true_iff, !Nat.leb_le. reflexivity.
Qed.

Lemma email_char_of_email (s : string) :
  test email_pattern s = true -> string_forallb email_char s = true.
Proof.
  unfold test. intros H. apply matches_spec in H.
  apply (Lang_chars email_char _ _ H).
  unfold email_pattern. cbv zeta. cbn [classes_within plus opt times].
  assert (Hword : forall c, word c = true -> email_char c = true).
  { unfold email_char. intros c ->. reflexivity. }
  assert (Hdash : forall c, dot_or_dash c = true -> email_char c = true).
  { unfold email_char. intros c ->. rewrite orb_true_r. reflexivity. }
  assert (Hat : forall c, literal "@"%char c = true -> email_char c = true).
  { unfold email_char. intros c ->. apply orb_true_r. }
  assert (Hdot : forall c, literal "."%char c = true -> email_char c = true).
  { intros c H'. apply literal_eq in H'. subst c. reflexivity. }
  repeat split; assumption.
Qed.

Lemma email_char_of_mobile (s : string) :
  test mobile_pattern s = true -> string_forallb email_char s = true.
Proof.
  unfold test. intros H. apply matches_spec in H.
  apply (Lang_chars email_char _ _ H).
  unfold mobile_pattern. cbn [classes_within times].
  assert (Hdigit : forall c, digit c = true -> email_char c = true).
  { unfold email_char, word. intros c ->. rewrite !orb_true_r. reflexivity. }
  assert (Hlead : forall c, in_range 54 57 c = true -> email_char c = true).
  { intros c Hc. apply Hdigit. unfold digit. apply in_range_le.
    apply in_range_le in Hc. lia. }
  repeat split; assumption.
Qed.

(** X17. [validate] matches the login identifier as it was typed: [trim]
    is used only to tell a blank identifier from a malformed one.  An
    identifier holding any character other than a letter, digit,
    underscore, dot, dash or [@], for instance a blank before or after an
    otherwise valid address, gets the identifier error. *)
Theorem X17_identifier_is_not_trimmed (m : Modal) :
  view m = V_login ->
  string_forallb email_char (loginIdentifier m) = false ->
  exists msg, validation_errors m !! "loginIdentifier" = Some msg.
Proof.
  intros Hview Hchars. rewrite (validation_errors_login m Hview). cbv zeta.
  destruct (test email_pattern (loginIdentifier m)) eqn:Hemail.
  { rewrite (email_char_of_email _ Hemail) in Hchars. discriminate Hchars. }
  destruct (test mobile_pattern (loginIdentifier m)) eqn:Hmobile.
  { rewrite (email_char_of_mobile _ Hmobile) in Hchars. discriminate Hchars. }
  case_conditions; cbn [negb andb]; lookup_errors; eexists; reflexivity.
Qed.

End ValidateMore.

(** X17 on an address that is valid but for the blank typed before it. *)
Lemma X17_witness :
  let m := {| view := V_login; loginIdentifier := " asha@example.in";
              name := ""; email := ""; mobile := ""; resetEmail := "";
              password := "secret1"; formError := JStr "";
              validationErrors := ∅; isSubmitting := false |} in
  Regex.test Regex.email_pattern (Regex.trim (loginIdentifier m)) = true /\
  exists msg, LoginModal.validation_errors m !! "loginIdentifier" = Some msg.
Proof.
  intros m. split; [vm_compute; reflexivity|].
  apply (X17_identifier_is_not_trimmed m); [reflexivity|vm_compute; reflexivity].
Defined.

(* ===================================================================== *)
(** ** Further properties of the modal's submissions *)
(* ===================================================================== *)

Section HandlersMore.

Import AuthContext LoginModal.

Variable t : string -> string.

Lemma blocked_of_errors (m : Modal) :
  validation_errors m <> ∅ ->
  (List.length (object_keys (validation_errors m)) =? 0)%nat = false.
Proof.
  intros Hne. apply not_true_iff_false. intros H.
  apply no_keys_iff_empty in H. contradiction.
Qed.

Lemma handleSignup_blocked
    (signup : string -> string -> string -> string -> M AuthResult)
    (m : Modal) (user : JsVal) (w : World) :
  (List.length (object_keys (validation_errors m)) =? 0)%nat = false ->
  handleSignup t signup m user w
  = (Normal tt, snd (setValidationErrors (validation_errors m)
                       (snd (setFormError (JStr "") w)))).
Proof.
  intros Hblocked. unfold handleSignup, validate. destruct_world w. mstep.
  rewrite Hblocked. reflexivity.
Qed.

Lemma handlePasswordReset_blocked (m : Modal) (w : World) :
  (List.length (object_keys (validation_errors m)) =? 0)%nat = false ->
  handlePasswordReset m w
  = (Normal tt, snd (setValidationErrors (validation_errors m)
                       (snd (setFormError (JStr "") w)))).
Proof.
  intros Hblocked. unfold handlePasswordReset, validate. destruct_world w. mstep.
  rewrite Hblocked. reflexivity.
Qed.

(** X18. A submission that fails validation ends in the same state for
    all three forms, whatever [login] and [signup] are: the errors of
    [validate] are in the validation-error map, an earlier form error is
    gone (the banner renders nothing), and nothing else has happened: no
    request, no callback, no timer, no change to the submitting flag, to
    the view, to the input fields, to storage or to the stored user. *)
Theorem X18_failed_validation_stops_every_submission
    (login : string -> string -> M AuthResult)
    (signup : string -> string -> string -> string -> M AuthResult)
    (m : Modal) (user : JsVal) (w : World) :
  validation_errors m <> ∅ ->
  exists w',
    handleLogin t login m user w = (Normal tt, w') /\
    handleSignup t signup m user w = (Normal tt, w') /\
    handlePasswordReset m w = (Normal tt, w') /\
    validationErrors (modal w') = validation_errors m /\
    formError (modal w') = JStr "" /\
    FormErrorDisplay (modal w') = None /\
    requests (trace w') = requests (trace w) /\
    callbacks (trace w') = callbacks (trace w) /\
    timers w' = timers w /\
    isSubmitting (modal w') = isSubmitting (modal w) /\
    view (modal w') = view (modal w) /\
    field_values (modal w') = field_values (modal w) /\
    localStorage w' = localStorage w /\
    State.user w' = State.user w.
Proof.
  intros Hne. pose proof (blocked_of_errors m Hne) as Hblocked.
  eexists. split; [apply handleLogin_blocked; exact Hblocked|].
  split; [apply handleSignup_blocked; exact Hblocked|].
  split; [apply handlePasswordReset_blocked; exact Hblocked|].
  destruct_world w. unfold FormErrorDisplay. mstep.
  rewrite requests_app, callbacks_app.
  split; [reflexivity|]. split; [reflexivity|]. split; [reflexivity|].
  split; [apply app_nil_r|]. split; [apply app_nil_r|]. repeat split.
Qed.

(** A submission that passes validation, whatever [login] then does. *)
Lemma handleLogin_run
    (login : string -> string -> M AuthResult) (m : Modal) (user : JsVal) (w : World) :
  validation_errors m = ∅ ->
  handleLogin t login m user w
  = match login (loginIdentifier m) (password m) (submitting w) with
    | (Normal result, w2) =>
        (if success result && to_boolean user then onLoginSuccess user
         else setFormError (js_or (result_error result)
                                  (JStr (t "loginModal.invalidCredentials"))))
          (snd (setIsSubmitting false w2))
    | (Throw e, w2) => (Throw e, w2)
    end.
Proof.
  intros Hvalid. unfold handleLogin, validate, submitting.
  rewrite Hvalid, object_keys_empty.
  destruct_world w. mstep. cbv beta iota delta [List.length Nat.eqb negb].
  match goal with |- context [login ?a ?b ?w1] => destruct (login a b w1) as [[result|e] w2] end.
  - destruct_world w2. mstep. reflexivity.
  - reflexivity.
Qed.

Lemma handleSignup_run
    (signup : string -> string -> string -> string -> M AuthResult)
    (m : Modal) (user : JsVal) (w : World) :
  validation_errors m = ∅ ->
  handleSignup t signup m user w
  = match signup (name m) (mobile m) (email m) (password m) (submitting w) with
    | (Normal result, w2) =>
        (if success result && to_boolean user then onLoginSuccess user
         else setFormError (js_or (result_error result)
                                  (JStr (t "loginModal.error.generic"))))
          (snd (setIsSubmitting false w2))
    | (Throw e, w2) => (Throw e, w2)
    end.
Proof.
  intros Hvalid. unfold handleSignup, validate, submitting.
  rewrite Hvalid, object_keys_empty.
  destruct_world w. mstep. cbv beta iota delta [List.length Nat.eqb negb].
  match goal with
  | |- context [signup ?a ?b ?c ?d ?w1] =>
      destruct (signup a b c d w1) as [[result|e] w2]
  end.
  - destruct_world w2. mstep. reflexivity.
  - reflexivity.
Qed.

Lemma submitting_frame (w : World) :
  localStorage (submitting w) = localStorage w /\
  State.user (submitting w) = State.user w /\
  trace (submitting w)
  = (trace w ++ [EvSetFormError (JStr ""); EvSetIsSubmitting true])%list.
Proof.
  destruct_world w. unfold submitting. mstep. rewrite <- app_assoc. repeat split.
Qed.

(** X19. A validated login that the backend rejects with an error object
    ends with the form usable again and the normalised message on display:
    the submitting flag is back to false, the form error is what
    [getApiErrorMessage] makes of the rejection, the success callback is
    not called, and storage and the stored user are as before.  The
    observable steps are, in order: form error cleared, submitting set,
    the request, submitting cleared, form error set. *)
Theorem X19_rejected_login_shows_normalised_message
    (transport : Transport) (m : Modal) (user : JsVal) (w : World) (e : JsVal) :
  validation_errors m = ∅ ->
  transport (login_request (submitting w) (loginIdentifier m) (password m)) = Throw e ->
  is_object e = true ->
  exists w',
    handleLogin t (login transport) m user w = (Normal tt, w') /\
    formError (modal w') = spec_error_message e /\
    FormErrorDisplay (modal w') = Some (spec_error_message e) /\
    isSubmitting (modal w') = false /\
    callbacks (trace w') = callbacks (trace w) /\
    localStorage w' = localStorage w /\
    State.user w' = State.user w /\
    trace w'
    = (trace w ++
       [EvSetFormError (JStr ""); EvSetIsSubmitting true;
        EvRequest (login_request (submitting w) (loginIdentifier m) (password m));
        EvSetIsSubmitting false; EvSetFormError (spec_error_message e)])%list.
Proof.
  intros Hvalid Hresp Hobj.
  assert (Hmsg : Api.getApiErrorMessage e = Normal (spec_error_message e)).
  { apply getApiErrorMessage_returns; destruct e; discriminate. }
  pose proof (spec_error_message_truthy e) as Htruthy.
  eexists. split.
  { rewrite (handleLogin_run _ m user w Hvalid).
    rewrite (login_rejected transport _ _ (submitting w) e Hresp), Hmsg.
    cbn [success result_error error andb default from_option id].
    unfold js_or. rewrite Htruthy. reflexivity. }
  unfold FormErrorDisplay.
  set (req := login_request (submitting w) (loginIdentifier m) (password m)).
  clearbody req. destruct_world w. unfold submitting. mstep.
  rewrite Htruthy. rewrite !callbacks_app. cbn [negb].
  split; [reflexivity|]. split; [reflexivity|]. split; [reflexivity|].
  split; [cbn [callbacks omap list_omap]; rewrite !app_nil_r; reflexivity|].
  split; [reflexivity|]. split; [reflexivity|].
  rewrite <- !app_assoc. reflexivity.
Qed.

(** X20. When the promise of [login] is rejected, which happens when the
    endpoint is rejected with [null] or [undefined], [handleLogin] is
    rejected too and never reaches [setIsSubmitting(false)]: the form
    stays in the submitting state, with no form error and no callback. *)
Theorem X20_rejected_promise_leaves_form_submitting
    (transport : Transport) (m : Modal) (user : JsVal) (w : World) (e : JsVal) :
  validation_errors m = ∅ ->
  transport (login_request (submitting w) (loginIdentifier m) (password m)) = Throw e ->
  e = JNull \/ e = JUndefined ->
  exists e' w',
    handleLogin t (login transport) m user w = (Throw e', w') /\
    isSubmitting (modal w') = true /\
    formError (modal w') = JStr "" /\
    callbacks (trace w') = callbacks (trace w).
Proof.
  intros Hvalid Hresp Hnull.
  assert (Hthrows : exists e', Api.getApiErrorMessage e = Throw e').
  { destruct Hnull as [-> | ->]; eexists; vm_compute; reflexivity. }
  destruct Hthrows as [e' He'].
  exists e'. eexists. split.
  { rewrite (handleLogin_run _ m user w Hvalid).
    rewrite (login_rejected transport _ _ (submitting w) e Hresp), He'.
    reflexivity. }
  set (req := login_request (submitting w) (loginIdentifier m) (password m)).
  clearbody req. destruct_world w. unfold submitting. mstep.
  rewrite !callbacks_app. cbn [callbacks omap list_omap]. rewrite !app_nil_r.
  repeat split.
Qed.

(** X21. Outside an [AuthProvider] the modal gets the default context,
    whose [login] and [signup] answer [{ success: false }] without an
    error text.  A validated submission then sends nothing, calls no
    callback even when a user is present, and shows the translated
    fallback text: "loginModal.invalidCredentials" for Login,
    "loginModal.error.generic" for Signup. *)
Theorem X21_default_context_shows_fallback_text (m : Modal) (user : JsVal) (w : World) :
  validation_errors m = ∅ ->
  exists w1 w2,
    handleLogin t default_login m user w = (Normal tt, w1) /\
    handleSignup t default_signup m user w = (Normal tt, w2) /\
    formError (modal w1) = JStr (t "loginModal.invalidCredentials") /\
    formError (modal w2) = JStr (t "loginModal.error.generic") /\
    isSubmitting (modal w1) = false /\ isSubmitting (modal w2) = false /\
    requests (trace w1) = requests (trace w) /\
    requests (trace w2) = requests (trace w) /\
    callbacks (trace w1) = callbacks (trace w) /\
    callbacks (trace w2) = callbacks (trace w) /\
    localStorage w1 = localStorage w /\ localStorage w2 = localStorage w.
Proof.
  intros Hvalid. do 2 eexists.
  split; [rewrite (handleLogin_run _ m user w Hvalid); reflexivity|].
  split; [rewrite (handleSignup_run _ m user w Hvalid); reflexivity|].
  destruct_world w. unfold submitting, default_login, default_signup. mstep.
  cbn [success result_error error andb default from_option id js_or to_boolean].
  mstep. rewrite !requests_app, !callbacks_app.
  cbn [requests callbacks omap list_omap]. rewrite !app_nil_r.
  repeat split.
Qed.

Lemma login_sends_one (transport : Transport) (email password : string) (w : World) :
  requests (trace (snd (login transport email password w)))
  = (requests (trace w) ++ [login_request w email password])%list.
Proof.
  unfold login_request, credentials, login, Api.loginUser, Api.api_post.
  unfold try_catch, mbind at 1, M_bind at 1. rewrite api_request_run.
  destruct_world w. mstep.
  match goal with |- context [transport ?r] => destruct (transport r) as [resp|e] end;
    mstep.
  - destruct (get resp "data") as [body|e1]; mstep.
    + destruct (destructure_token_user body) as [[token u]|e2]; mstep.
      * rewrite !requests_app. cbn [requests omap list_omap]. rewrite app_nil_r.
        reflexivity.
      * destruct (Api.getApiErrorMessage e2); mstep; rewrite requests_app; reflexivity.
    + destruct (Api.getApiErrorMessage e1); mstep; rewrite requests_app; reflexivity.
  - destruct (Api.getApiErrorMessage e); mstep; rewrite requests_app; reflexivity.
Qed.

Lemma signup_sends_one
    (transport : Transport) (name mobile email password : string) (w : World) :
  requests (trace (snd (signup transport name mobile email password w)))
  = (requests (trace w) ++ [signup_request w name mobile email password])%list.
Proof.
  unfold signup_request, registration, signup, Api.registerUser, Api.api_post.
  unfold try_catch, mbind at 1, M_bind at 1. rewrite api_request_run.
  destruct_world w. mstep.
  match goal with |- context [transport ?r] => destruct (transport r) as [resp|e] end;
    mstep.
  - destruct (get resp "data") as [body|e1]; mstep.
    + destruct (destructure_token_user body) as [[token u]|e2]; mstep.
      * rewrite !requests_app. cbn [requests omap list_omap]. rewrite app_nil_r.
        reflexivity.
      * destruct (Api.getApiErrorMessage e2); mstep; rewrite requests_app; reflexivity.
    + destruct (Api.getApiErrorMessage e1); mstep; rewrite requests_app; reflexivity.
  - destruct (Api.getApiErrorMessage e); mstep; rewrite requests_app; reflexivity.
Qed.

Lemma requests_after_branch (user : JsVal) (result : AuthResult) (key : string) (w : World) :
  requests (trace (snd
    ((if success result && to_boolean user then onLoginSuccess user
      else setFormError (js_or (result_error result) (JStr (t key))))
       (snd (setIsSubmitting false w)))))
  = requests (trace w).
Proof.
  destruct_world w. destruct (success result && to_boolean user);
    unfold onLoginSuccess; mstep; rewrite !requests_app;
    cbn [requests omap list_omap]; rewrite !app_nil_r; reflexivity.
Qed.

Lemma requests_submitting (w : World) :
  requests (trace (submitting w)) = requests (trace w).
Proof.
  destruct (submitting_frame w) as (_ & _ & ->). rewrite requests_app.
  cbn [requests omap list_omap]. apply app_nil_r.
Qed.

(** X22. A validated submission sends exactly one request, whatever the
    backend then answers, and its body is built from the fields as typed.
    Login posts to [/auth/login] the identifier under the key [email], also
    when it is a mobile number, and the password.  Signup posts to
    [/auth/register] the name, e-mail, mobile and password each under its
    own key, although [signup] takes them in the order name, mobile,
    e-mail. *)
Theorem X22_submissions_post_the_typed_fields
    (transport : Transport) (m : Modal) (user : JsVal) (w : World) :
  validation_errors m = ∅ ->
  exists posted registered,
    requests (trace (snd (handleLogin t (login transport) m user w)))
      = (requests (trace w) ++ [posted])%list /\
    requests (trace (snd (handleSignup t (signup transport) m user w)))
      = (requests (trace w) ++ [registered])%list /\
    method posted = "post" /\ url posted = "/auth/login" /\
    data posted = JObj {[ "email" := JStr (loginIdentifier m);
                          "password" := JStr (password m) ]} /\
    method registered = "post" /\ url registered = "/auth/register" /\
    data registered = JObj {[ "name" := JStr (name m); "email" := JStr (email m);
                              "mobile" := JStr (mobile m);
                              "password" := JStr (password m) ]}.
Proof.
  intros Hvalid.
  exists (login_request (submitting w) (loginIdentifier m) (password m)),
         (signup_request (submitting w) (name m) (mobile m) (email m) (password m)).
  split.
  { rewrite (handleLogin_run _ m user w Hvalid).
    pose proof (login_sends_one transport (loginIdentifier m) (password m) (submitting w))
      as Hone.
    destruct (login transport (loginIdentifier m) (password m) (submitting w))
      as [[result|e] w2]; cbn [snd] in Hone.
    - rewrite requests_after_branch, Hone, requests_submitting. reflexivity.
    - cbn [snd]. rewrite Hone, requests_submitting. reflexivity. }
  split.
  { rewrite (handleSignup_run _ m user w Hvalid).
    pose proof (signup_sends_one transport (name m) (mobile m) (email m) (password m)
                  (submitting w)) as Hone.
    destruct (signup transport (name m) (mobile m) (email m) (password m) (submitting w))
      as [[result|e] w2]; cbn [snd] in Hone.
    - rewrite requests_after_branch, Hone, requests_submitting. reflexivity.
    - cbn [snd]. rewrite Hone, requests_submitting. reflexivity. }
  unfold login_request, signup_request.
  rewrite !request_method, !request_url, !request_data.
  repeat split.
Qed.

Ltac run_modal :=
  cbv beta iota zeta delta
    [ act switchTo run_timer handlePasswordReset validate renderContent renderLogin
      renderSignup renderForgotPassword renderResetSent find_input List.find
      input_id input_value onChange ];
  mstep.

Lemma act_keeps_timers (a : Action) (w : World) : timers (snd (act a w)) = timers w.
Proof.
  destruct a as [id text|targetView]; destruct_world w.
  - destruct view0; run_modal;
      repeat match goal with
             | |- context [String.eqb ?a ?b] => destruct (String.eqb a b)
             end; reflexivity.
  - run_modal. reflexivity.
Qed.

(** X23. Password reset is local to the modal.  Submitting the form never
    sends a request, calls no callback and leaves storage and the stored
    user alone: when validation passes it sets the submitting flag and
    schedules one timer holding the address as it was at that moment, and
    otherwise schedules nothing.  Typing and switching views afterwards do
    not touch the scheduled timer.  When the timer runs, it logs that
    address, clears the submitting flag and shows the reset-sent view,
    again without any request, whatever the fields hold by then. *)
Theorem X23_password_reset_is_local :
  (forall (m : Modal) (w : World),
     exists w',
       handlePasswordReset m w = (Normal tt, w') /\
       timers w'
       = (if (List.length (object_keys (validation_errors m)) =? 0)%nat
          then timers w ++ [ResetLinkTimer (resetEmail m)] else timers w)%list /\
       isSubmitting (modal w')
       = (if (List.length (object_keys (validation_errors m)) =? 0)%nat
          then true else isSubmitting (modal w)) /\
       view (modal w') = view (modal w) /\
       requests (trace w') = requests (trace w) /\
       callbacks (trace w') = callbacks (trace w) /\
       localStorage w' = localStorage w /\ State.user w' = State.user w) /\
  (forall (a : Action) (w : World), timers (snd (act a w)) = timers w) /\
  (forall (captured : string) (w : World),
     exists w',
       run_timer (ResetLinkTimer captured) w = (Normal tt, w') /\
       trace w' = (trace w ++ [EvConsole ("Password reset link sent to: " +:+ captured);
                               EvSetIsSubmitting false])%list /\
       view (modal w') = V_resetSent /\
       isSubmitting (modal w') = false /\
       field_values (modal w') = field_values (modal w) /\
       requests (trace w') = requests (trace w) /\
       localStorage w' = localStorage w /\ State.user w' = State.user w).
Proof.
  split; [|split].
  - intros m w. exists (snd (handlePasswordReset m w)).
    destruct_world w. run_modal.
    destruct (List.length (object_keys (validation_errors m)) =? 0)%nat;
      cbn [negb]; mstep; rewrite !requests_app, !callbacks_app;
      cbn [requests callbacks omap list_omap]; rewrite ?app_nil_r; repeat split.
  - exact act_keeps_timers.
  - intros captured w. exists (snd (run_timer (ResetLinkTimer captured) w)).
    destruct_world w. run_modal. rewrite !requests_app.
    cbn [requests omap list_omap]. rewrite ?app_nil_r, <- ?app_assoc. repeat split.
Qed.

End HandlersMore.

(** X18 on the Login form with an identifier that is neither an address
    nor a number. *)
Lemma X18_witness :
  let m := {| view := V_login; loginIdentifier := "not-an-email-or-phone";
              name := ""; email := ""; mobile := ""; resetEmail := "";
              password := "secret1"; formError := JStr "Invalid credentials";
              validationErrors := ∅; isSubmitting := false |} in
  let w := world_with_form m in
  exists w',
    LoginModal.handleLogin (fun key => key) (AuthContext.login backend_accepts_asha)
      m JNull w = (Normal tt, w') /\
    LoginModal.FormErrorDisplay (modal w') = None /\
    requests (trace w') = [].
Proof.
  intros m w.
  destruct (X18_failed_validation_stops_every_submission (fun key => key)
              (AuthContext.login backend_accepts_asha)
              (AuthContext.signup backend_accepts_asha) m JNull w)
    as (w' & Hlogin & _ & _ & _ & _ & Hbanner & Hreq & _).
  - intros Hempty.
    assert (Hkey : LoginModal.validation_errors m !! "loginIdentifier"
                   = Some identifier_error) by (vm_compute; reflexivity).
    rewrite Hempty, lookup_empty in Hkey. discriminate Hkey.
  - exists w'. split; [exact Hlogin|]. split; [exact Hbanner|exact Hreq].
Defined.

(** X19 with the wrong password: the backend's own message is shown. *)
Lemma X19_witness :
  exists w',
    LoginModal.handleLogin (fun key => key) (AuthContext.login backend_accepts_asha)
      (login_form "letmein") JNull (world_with_form (login_form "letmein"))
      = (Normal tt, w') /\
    formError (modal w') = JStr "Invalid credentials" /\
    isSubmitting (modal w') = false.
Proof.
  destruct (X19_rejected_login_shows_normalised_message (fun key => key)
              backend_accepts_asha (login_form "letmein") JNull
              (world_with_form (login_form "letmein")) invalid_credentials)
    as (w' & Hrun & Herror & _ & Hsubmitting & _).
  - vm_compute. reflexivity.
  - vm_compute. reflexivity.
  - reflexivity.
  - exists w'. split; [exact Hrun|]. split; [|exact Hsubmitting].
    rewrite Herror. vm_compute. reflexivity.
Defined.

(** X20 with a transport that rejects with [null]. *)
Lemma X20_witness :
  exists e' w',
    LoginModal.handleLogin (fun key => key) (AuthContext.login (fun _ => Throw JNull))
      (login_form "secret1") JNull (world_with_form (login_form "secret1"))
      = (Throw e', w') /\
    isSubmitting (modal w') = true.
Proof.
  destruct (X20_rejected_promise_leaves_form_submitting (fun key => key)
              (fun _ => Throw JNull) (login_form "secret1") JNull
              (world_with_form (login_form "secret1")) JNull)
    as (e' & w' & Hrun & Hsubmitting & _).
  - vm_compute. reflexivity.
  - reflexivity.
  - left. reflexivity.
  - exists e', w'. split; [exact Hrun|exact Hsubmitting].
Defined.

(** X21 on Asha's Login form. *)
Lemma X21_witness :
  exists w1,
    LoginModal.handleLogin (fun key => key) AuthContext.default_login
      (login_form "secret1") JNull (world_with_form (login_form "secret1"))
      = (Normal tt, w1) /\
    formError (modal w1) = JStr "loginModal.invalidCredentials" /\
    requests (trace w1) = [].
Proof.
  destruct (X21_default_context_shows_fallback_text (fun key => key)
              (login_form "secret1") JNull (world_with_form (login_form "secret1")))
    as (w1 & w2 & Hrun & _ & Herror & _ & _ & _ & Hreq & _).
  - vm_compute. reflexivity.
  - exists w1. split; [exact Hrun|]. split; [exact Herror|exact Hreq].
Defined.

(** X22 on Asha's Login form. *)
Lemma X22_witness :
  exists posted,
    requests (trace (snd (LoginModal.handleLogin (fun key => key)
                            (AuthContext.login backend_accepts_asha)
                            (login_form "secret1") JNull
                            (world_with_form (login_form "secret1")))))
      = [posted] /\
    url posted = "/auth/login" /\
    data posted = JObj {[ "email" := JStr "asha@example.in";
                          "password" := JStr "secret1" ]}.
Proof.
  destruct (X22_submissions_post_the_typed_fields (fun key => key)
              backend_accepts_asha (login_form "secret1") JNull
              (world_with_form (login_form "secret1")))
    as (posted & registered & Hposted & _ & _ & Hurl & Hdata & _).
  - vm_compute. reflexivity.
  - exists posted. split; [exact Hposted|]. split; [exact Hurl|exact Hdata].
Defined.

Section Typing.

Import LoginModal.

Ltac run_typing :=
  cbv beta iota zeta delta
    [ act renderContent renderLogin renderSignup renderForgotPassword
      renderResetSent find_input List.find input_id input_value onChange
      shown_value fmap option_fmap option_map ];
  mstep.

Ltac case_input_ids :=
  repeat match goal with
         | |- context [String.eqb ?a ?b] =>
             let E := fresh "E" in
             destruct (String.eqb_spec a b) as [E|E];
             [first [discriminate E | subst] | try congruence]
         end.

(** X24. A keystroke only stores the typed text.  Typing into an input of
    the current view never throws, makes that input show exactly the typed
    text, and changes nothing else that can be observed: the view, the
    form error and the validation errors stay as the last submission or
    view switch left them, the submitting flag, the trace, storage and
    the stored user are untouched.  A change event for an input that the
    current view does not render changes nothing at all. *)
Theorem X24_typing_only_stores_the_text (id text : string) (w : World) :
  let w' := snd (act (TypeInto id text) w) in
  fst (act (TypeInto id text) w) = Normal tt /\
  view (modal w') = view (modal w) /\
  formError (modal w') = formError (modal w) /\
  validationErrors (modal w') = validationErrors (modal w) /\
  isSubmitting (modal w') = isSubmitting (modal w) /\
  trace w' = trace w /\
  localStorage w' = localStorage w /\
  user w' = user w /\
  match shown_value id w with
  | Some _ => shown_value id w' = Some text
  | None => w' = w
  end.
Proof.
  destruct_world w. destruct view0; run_typing; case_input_ids;
    repeat split; reflexivity.
Qed.

End Typing.
